(** * Hardware management system: stock, ledger and sales records

    A shallow embedding of the Django applications [inventory], [finance],
    [sales] and [audit]: the model declarations, the serializers, the admin
    classes and the REST views, with the properties the specification states
    about the append-only event records and the state derived from them.

    Conventions.
    - A [DecimalField] value is an integer number of units of
      [10 ^ -decimal_places]: quantities are counted in thousandths, money in
      hundredths.  A sum taken in Python is exact: [Decimal] adds exactly
      while a result has at most 28 digits (the default precision), which
      sums of 15-digit columns do not reach before some 10^13 rows.
    - The database is its tables and its engine.  [settings.DATABASES]
      names the engine and no settings module is among the sources, so the
      sum and the comparison of texts that a query leaves to the database
      are those of its [engine].
    - A UUID primary key is its 128-bit integer value.
    - A table keyed by primary key is a [gmap]; the two event tables are lists
      in insertion order.
    - Python exceptions are the [Raise] branch of [result]. *)

From stdpp Require Import gmap strings list fin_maps sorting.
From Stdlib Require Import ZArith Lia.

Local Open Scope Z_scope.

(** ** Python: exceptions, attribute lookup *)

Module Python.

Inductive PyError : Type :=
| AttributeError (name : string)
| ImportError (name : string)
| TypeError
| InvalidOperation
| ValidationError (message : string)
| IntegrityError (column : string)
| ProtectedError (model : string)
| PermissionDenied
| DoesNotExist (model : string).

(** The builtin [sum] over decimals: start at 0, add from the left. *)
Definition builtin_sum (xs : list Z) : Z := foldl Z.add 0 xs.

(** A [decimal.Decimal] as Python holds it: the number
    [coefficient * 10 ^ exponent]. *)
Record Decimal : Type := {
  coefficient : Z;
  exponent : Z;
}.

Inductive result (A : Type) : Type :=
| Ok (a : A)
| Raise (e : PyError).
Global Arguments Ok {A} a.
Global Arguments Raise {A} e.

Global Instance result_ret : MRet result := λ A a, Ok a.
Global Instance result_bind : MBind result := λ A B f r,
  match r with
  | Ok a => f a
  | Raise e => Raise e
  end.
Global Instance result_fmap : FMap result := λ A B f r,
  match r with
  | Ok a => Ok (f a)
  | Raise e => Raise e
  end.

Definition is_Ok {A} (r : result A) : bool :=
  match r with Ok _ => true | Raise _ => false end.

(** Truthiness of an optional string, as in [if product_id:]. *)
Definition truthy (v : option string) : option string :=
  match v with
  | Some s => if decide (s = "") then None else Some s
  | None => None
  end.

(** The names a module binds at its top level, and [from m import a, b]. *)
Definition import_from (bound : list string) (wanted : list string)
  : result unit :=
  match List.find (λ n, bool_decide (n ∉ bound)) wanted with
  | Some n => Raise (ImportError n)
  | None => Ok ()
  end.

End Python.
Import Python.

(** ** Django: field declarations, validation, deletion *)

Module Django.

Abbreviation UUID := N.

(** [models.DecimalField(max_digits=.., decimal_places=..)]. *)
Record DecimalField : Type := {
  max_digits : nat;
  decimal_places : nat;
}.

(** A scaled value fits the column when it has at most [max_digits]
    digits, that is at most [max_digits - decimal_places] of them before
    the decimal point. *)
Definition representable (f : DecimalField) (v : Z) : bool :=
  bool_decide (Z.abs v < 10 ^ Z.of_nat (max_digits f)).

Definition max_value (f : DecimalField) : Z :=
  10 ^ Z.of_nat (max_digits f) - 1.

Definition DecimalField_run_validation (f : DecimalField) (v : Z) : result Z :=
  if representable f v then Ok v
  else Raise (ValidationError "Ensure that there are no more digits in total").

(** *** The database engine

    What the code leaves to the engine named in the settings.
    - [SUM]: the aggregate over the values of a [numeric(15, 3)] column,
      given in thousandths in the order of the table, as the [Decimal]
      Django hands back.  The engine compares its own sum with zero in a
      HAVING clause; the sign of the value handed back is the sign of that
      sum.
    - [varchar_eq]: the comparison [=] of a [varchar] column with a text,
      which follows the collation of the column. *)
Record Engine : Type := {
  SUM : list Z → Decimal;
  varchar_eq : string → string → bool;
}.

Definition thousandths (z : Z) : Decimal :=
  {| coefficient := z; exponent := -3 |}.

(** PostgreSQL adds NUMERIC values exactly, at the scale of the column, and
    a text equals itself only. *)
Definition postgresql : Engine :=
  {| SUM := λ values, thousandths (foldr Z.add 0 values);
     varchar_eq := λ column text, bool_decide (column = text) |}.

(** The primary-key constraint, checked on INSERT. *)
Definition primary_key_insert (column : string) (stored : list UUID)
    (pk : UUID) : result UUID :=
  if bool_decide (pk ∈ stored) then Raise (IntegrityError column) else Ok pk.

(** Options of a model field that decide validation. *)
Record FieldOptions : Type := {
  null : bool;
  blank : bool;
  choices : option (list (string * string));
  max_length : option nat;
}.

(** [Field.validate] followed by the [max_length] validator, for a
    [CharField] value. *)
Definition CharField_clean (f : FieldOptions) (value : string)
  : result string :=
  if blank f && bool_decide (value = "") then Ok value
  else
    match choices f with
    | Some cs =>
        if bool_decide (value ≠ "") && bool_decide (value ∉ cs.*1)
        then Raise (ValidationError "Value is not a valid choice.")
        else Ok ()
    | None => Ok ()
    end ≫= λ _,
    (if negb (blank f) && bool_decide (value = "")
     then Raise (ValidationError "This field cannot be blank.")
     else Ok ()) ≫= λ _,
    match max_length f with
    | Some n =>
        if bool_decide (n < String.length value)%nat
        then Raise (ValidationError "Ensure this value has fewer characters.")
        else Ok value
    | None => Ok value
    end.

(** [Model.clean_fields] on a nullable column: a field declared
    [blank=True] is skipped when empty; otherwise [None] needs
    [null=True]. *)
Definition nullable_clean {A} (f : FieldOptions) (value : option A)
  : result (option A) :=
  match value with
  | None =>
      if blank f then Ok None
      else if null f then Ok None
      else Raise (ValidationError "This field cannot be null.")
  | Some a => Ok (Some a)
  end.

(** The NOT NULL constraint of the column, checked on insert. *)
Definition column_insert {A} (f : FieldOptions) (column : string)
    (value : option A) : result (option A) :=
  match value with
  | None => if null f then Ok None else Raise (IntegrityError column)
  | Some a => Ok (Some a)
  end.

(** [ForeignKey.validate]: the referred row must exist. *)
Definition ForeignKey_validate {Row} (table : gmap UUID Row) (pk : UUID)
  : result UUID :=
  if bool_decide (is_Some (table !! pk)) then Ok pk
  else Raise (ValidationError "Instance does not exist.").

(** The foreign-key constraint of the column, checked on insert. *)
Definition ForeignKey_insert {Row} (column : string) (table : gmap UUID Row)
    (pk : UUID) : result UUID :=
  if bool_decide (is_Some (table !! pk)) then Ok pk
  else Raise (IntegrityError column).

Inductive OnDelete : Type := CASCADE | PROTECT.

(** *** [UUIDField.to_python] on a string: [uuid.UUID(hex=value)]

    A character is its code point, below 256. *)

(** [str.replace(old, '')] for a non-empty [old]: its occurrences are
    removed from left to right, without overlap; [skip] counts the
    characters of an occurrence that are still to be passed over. *)
Fixpoint str_remove_from (old : string) (skip : nat) (s : string) : string :=
  match s with
  | EmptyString => EmptyString
  | String a s' =>
      match skip with
      | S n => str_remove_from old n s'
      | O =>
          if String.prefix old s
          then str_remove_from old (String.length old - 1) s'
          else String a (str_remove_from old 0 s')
      end
  end.

Definition str_remove (old s : string) : string := str_remove_from old 0 s.

(** [str.strip(chars)]. *)
Fixpoint lstrip (chars : Ascii.ascii → bool) (s : string) : string :=
  match s with
  | EmptyString => EmptyString
  | String a s' => if chars a then lstrip chars s' else s
  end.

Fixpoint rstrip (chars : Ascii.ascii → bool) (s : string) : string :=
  match s with
  | EmptyString => EmptyString
  | String a s' =>
      match rstrip chars s' with
      | EmptyString => if chars a then EmptyString else String a EmptyString
      | r => String a r
      end
  end.

Definition strip (chars : Ascii.ascii → bool) (s : string) : string :=
  rstrip chars (lstrip chars s).

(** The two braces. *)
Definition is_brace (a : Ascii.ascii) : bool :=
  let n := Ascii.N_of_ascii a in (n =? 123)%N || (n =? 125)%N.

Fixpoint remove_hyphens (s : string) : string :=
  match s with
  | EmptyString => EmptyString
  | String a s' =>
      if (Ascii.N_of_ascii a =? 45)%N then remove_hyphens s'
      else String a (remove_hyphens s')
  end.

(** The white space [int] passes over before and after a number: tab to
    carriage return, the space, and of the characters from 127 on the two
    that are spaces, NEL and the no-break space. *)
Definition int_space (a : Ascii.ascii) : bool :=
  let n := Ascii.N_of_ascii a in
  ((9 <=? n)%N && (n <=? 13)%N) || (n =? 32)%N || (n =? 133)%N || (n =? 160)%N.

Definition hex_digit (a : Ascii.ascii) : option N :=
  let n := Ascii.N_of_ascii a in
  if (48 <=? n)%N && (n <=? 57)%N then Some (n - 48)%N
  else if (97 <=? n)%N && (n <=? 102)%N then Some (n - 87)%N
  else if (65 <=? n)%N && (n <=? 70)%N then Some (n - 55)%N
  else None.

(** The digits of [int(s, 16)]: hexadecimal digits, with no more than one
    underscore between two of them and none after the last. *)
Fixpoint int_digits (acc : N) (after_underscore : bool) (s : string)
  : option N :=
  match s with
  | EmptyString => if after_underscore then None else Some acc
  | String a s' =>
      if (Ascii.N_of_ascii a =? 95)%N then
        if after_underscore then None else int_digits acc true s'
      else
        match hex_digit a with
        | Some d => int_digits (16 * acc + d)%N false s'
        | None => None
        end
  end.

(** [int(s, 16)]: white space around, a sign, the prefix 0x or 0X and one
    underscore after it are passed over; at least one digit must follow,
    and the digits do not start with an underscore. *)
Definition int_16 (s : string) : option Z :=
  let s := strip int_space s in
  let '(negative, s) :=
    match s with
    | String a s' =>
        if (Ascii.N_of_ascii a =? 43)%N then (false, s')
        else if (Ascii.N_of_ascii a =? 45)%N then (true, s')
        else (false, s)
    | EmptyString => (false, s)
    end in
  let s :=
    match s with
    | String a (String x s') =>
        if (Ascii.N_of_ascii a =? 48)%N
           && ((Ascii.N_of_ascii x =? 120)%N || (Ascii.N_of_ascii x =? 88)%N)
        then match s' with
             | String u s'' => if (Ascii.N_of_ascii u =? 95)%N then s'' else s'
             | EmptyString => s'
             end
        else s
    | _ => s
    end in
  match s with
  | EmptyString => None
  | String a _ =>
      if (Ascii.N_of_ascii a =? 95)%N then None
      else (λ n, if negative then - Z.of_N n else Z.of_N n)
             <$> int_digits 0 false s
  end.

(** [uuid.UUID(hex=s)], whose [ValueError] [to_python] turns into a
    [ValidationError]: [urn:] and [uuid:] are removed wherever they stand,
    then braces at both ends, then hyphens; what is left must be 32
    characters that [int] reads in base 16 as a number below [2 ^ 128]. *)
Definition UUID_to_python (s : string) : result UUID :=
  let hex := str_remove "uuid:" (str_remove "urn:" s) in
  let hex := remove_hyphens (strip is_brace hex) in
  if decide (String.length hex = 32%nat) then
    match int_16 hex with
    | Some int =>
        if bool_decide (0 ≤ int < 2 ^ 128) then Ok (Z.to_N int)
        else Raise (ValidationError "is not a valid UUID.")
    | None => Raise (ValidationError "is not a valid UUID.")
    end
  else Raise (ValidationError "is not a valid UUID.").

(** [ModelAdmin] change form: a posted value is applied unless its field
    is listed in [readonly_fields] (such a field is not part of the
    form). *)
Definition ModelAdmin_change {Obj Val} (readonly_fields : list string)
    (setattr : Obj → string → Val → Obj) (obj : Obj)
    (form : list (string * Val)) : Obj :=
  foldl (λ o nv, if bool_decide (nv.1 ∈ readonly_fields) then o
                 else setattr o nv.1 nv.2) obj form.

(** *** Rows of a list table, by primary key *)

Definition list_get {Obj} (pk_of : Obj → UUID) (pk : UUID) (table : list Obj)
  : option Obj :=
  List.find (λ o, bool_decide (pk_of o = pk)) table.

Definition list_change {Obj} (pk_of : Obj → UUID) (pk : UUID)
    (f : Obj → Obj) (table : list Obj) : list Obj :=
  (λ o, if decide (pk_of o = pk) then f o else o) <$> table.

Definition list_delete {Obj} (pk_of : Obj → UUID) (pk : UUID)
    (table : list Obj) : list Obj :=
  filter (λ o, pk_of o ≠ pk) table.

(** *** The admin views, gated by the permission methods *)

Definition add_view {Obj} (has_add_permission : bool) (obj : Obj)
    (table : list Obj) : result (list Obj) :=
  if has_add_permission then Ok (table ++ [obj]) else Raise PermissionDenied.

Definition change_view {Obj Val} (readonly_fields : list string)
    (setattr : Obj → string → Val → Obj) (pk_of : Obj → UUID) (pk : UUID)
    (form : list (string * Val)) (table : list Obj) : list Obj :=
  list_change pk_of pk
    (λ o, ModelAdmin_change readonly_fields setattr o form) table.

Definition delete_view {Obj} (has_delete_permission : bool)
    (pk_of : Obj → UUID) (pk : UUID) (table : list Obj) : result (list Obj) :=
  if has_delete_permission then Ok (list_delete pk_of pk table)
  else Raise PermissionDenied.

(** *** Deleting a referenced row

    The collector visits every foreign key pointing at the row: PROTECT
    refuses the deletion while a referring row exists, CASCADE deletes the
    referring rows too. *)
Definition collect {Row} (policy : OnDelete) (model : string)
    (refers : Row → bool) (table : list Row) : result (list Row) :=
  match policy with
  | PROTECT =>
      if existsb refers table then Raise (ProtectedError model) else Ok table
  | CASCADE => Ok (List.filter (λ r, negb (refers r)) table)
  end.

Definition collect_map {Row} (policy : OnDelete) (model : string)
    (refers : Row → bool) (table : gmap UUID Row) : result (gmap UUID Row) :=
  match policy with
  | PROTECT =>
      if existsb refers (map_to_list table).*2
      then Raise (ProtectedError model) else Ok table
  | CASCADE => Ok (filter (λ kv, refers kv.2 = false) table)
  end.

End Django.
Import Django.

(** ** inventory/models.py *)

Module Category.
Record t : Type := {
  id : UUID;
  name : string;
  parent : option UUID;
  is_active : bool;
}.
Definition parent_on_delete : OnDelete := CASCADE.
End Category.

Module Product.
Definition category_on_delete : OnDelete := PROTECT.

Record t : Type := {
  id : UUID;
  sku : string;
  name : string;
  category : UUID;
  unit_cost : Z;
  unit_price : Z;
  track_stock : bool;
  is_active : bool;
  created_at : Z;
}.
Definition unit_cost_field : DecimalField :=
  {| max_digits := 15; decimal_places := 2 |}.
Definition unit_price_field : DecimalField :=
  {| max_digits := 15; decimal_places := 2 |}.

(** A row as an admin change form leaves it: the posted values, except
    for the read-only [id] and [created_at]. *)
Definition changed (old posted : t) : t :=
  {| id := id old; sku := sku posted; name := name posted;
     category := category posted; unit_cost := unit_cost posted;
     unit_price := unit_price posted; track_stock := track_stock posted;
     is_active := is_active posted; created_at := created_at old |}.

Definition set_unit_price (v : Z) (p : t) : t :=
  {| id := id p; sku := sku p; name := name p; category := category p;
     unit_cost := unit_cost p; unit_price := v;
     track_stock := track_stock p; is_active := is_active p;
     created_at := created_at p |}.
End Product.

Module Warehouse.
Record t : Type := {
  id : UUID;
  name : string;
  location : string;
  is_active : bool;
}.
End Warehouse.

(** A value posted for a model field. *)
Inductive FieldValue : Type :=
| VNull
| VUUID (u : UUID)
| VStr (s : string)
| VDecimal (z : Z)
| VDateTime (z : Z).

Module StockMovement.
Definition MOVEMENT_TYPE_CHOICES : list (string * string) :=
  [("IN", "In"); ("OUT", "Out"); ("ADJUSTMENT", "Adjustment");
   ("TRANSFER_IN", "Transfer In"); ("TRANSFER_OUT", "Transfer Out");
   ("SALE", "Sale"); ("REFUND", "Refund")].

Definition REFERENCE_TYPE_CHOICES : list (string * string) :=
  [("SALE", "Sale"); ("PURCHASE", "Purchase"); ("MANUAL", "Manual")].

Record t : Type := {
  id : UUID;
  product : UUID;
  warehouse : UUID;
  movement_type : string;
  quantity : Z;
  reference_type : string;
  reference_id : option UUID;
  created_by : UUID;
  created_at : Z;
}.

Definition product_on_delete : OnDelete := PROTECT.
Definition warehouse_on_delete : OnDelete := PROTECT.
Definition created_by_on_delete : OnDelete := PROTECT.

Definition movement_type_field : FieldOptions :=
  {| null := false; blank := false;
     choices := Some MOVEMENT_TYPE_CHOICES; max_length := Some 20%nat |}.
Definition quantity_field : DecimalField :=
  {| max_digits := 15; decimal_places := 3 |}.
Definition reference_type_field : FieldOptions :=
  {| null := false; blank := false;
     choices := Some REFERENCE_TYPE_CHOICES; max_length := Some 20%nat |}.
Definition reference_id_field : FieldOptions :=
  {| null := true; blank := true; choices := None; max_length := None |}.

(** The names of the model's fields, in declaration order. *)
Definition field_names : list string :=
  ["id"; "product"; "warehouse"; "movement_type"; "quantity";
   "reference_type"; "reference_id"; "created_by"; "created_at"].

Definition set_reference_id (r : option UUID) (m : t) : t :=
  {| id := id m; product := product m; warehouse := warehouse m;
     movement_type := movement_type m; quantity := quantity m;
     reference_type := reference_type m; reference_id := r;
     created_by := created_by m; created_at := created_at m |}.

(** Assignment to a field by name; a value of the wrong kind is not
    assigned. *)
Definition setattr (m : t) (field : string) (v : FieldValue) : t :=
  let mk i p w mt q rt r cb ca :=
    {| id := i; product := p; warehouse := w; movement_type := mt;
       quantity := q; reference_type := rt; reference_id := r;
       created_by := cb; created_at := ca |} in
  let '{| id := i; product := p; warehouse := w; movement_type := mt;
          quantity := q; reference_type := rt; reference_id := r;
          created_by := cb; created_at := ca |} := m in
  match v with
  | VUUID u =>
      if decide (field = "id") then mk u p w mt q rt r cb ca
      else if decide (field = "product") then mk i u w mt q rt r cb ca
      else if decide (field = "warehouse") then mk i p u mt q rt r cb ca
      else if decide (field = "reference_id") then mk i p w mt q rt (Some u) cb ca
      else if decide (field = "created_by") then mk i p w mt q rt r u ca
      else m
  | VNull =>
      if decide (field = "reference_id") then mk i p w mt q rt None cb ca
      else m
  | VStr s =>
      if decide (field = "movement_type") then mk i p w s q rt r cb ca
      else if decide (field = "reference_type") then mk i p w mt q s r cb ca
      else m
  | VDecimal z =>
      if decide (field = "quantity") then mk i p w mt z rt r cb ca else m
  | VDateTime z =>
      if decide (field = "created_at") then mk i p w mt q rt r cb z else m
  end.

(** [Model.full_clean]: [clean_fields] cleans every field against its
    declaration, in declaration order, and [validate_unique] looks for a
    stored row with the same primary key when the instance is being added
    ([adding] is its [_state.adding]).  [users] is the table [created_by]
    refers to.  No [clean] method is defined on the model, so no rule
    relates two fields. *)
Definition full_clean {User} (adding : bool) (users : gmap UUID User)
    (products : gmap UUID Product.t) (warehouses : gmap UUID Warehouse.t)
    (table : list t) (m : t) : result t :=
  _ ← ForeignKey_validate products (product m);
  _ ← ForeignKey_validate warehouses (warehouse m);
  _ ← CharField_clean movement_type_field (movement_type m);
  _ ← DecimalField_run_validation quantity_field (quantity m);
  _ ← CharField_clean reference_type_field (reference_type m);
  _ ← nullable_clean reference_id_field (reference_id m);
  _ ← ForeignKey_validate users (created_by m);
  _ ← (if adding && bool_decide (id m ∈ (id <$> table))
       then Raise (ValidationError "Stock Movement with this Id already exists.")
       else Ok ());
  Ok m.

(** [Model.save] of a new row, an INSERT: the NOT NULL, primary-key and
    foreign-key constraints, then the row is added at the end of the
    table.  [save] does not call [full_clean].  The user table is not part
    of the database here: [created_by] is taken to refer to a stored user,
    as the authenticated user of a request does.  The row is taken to fit
    its columns, fifteen digits and twenty characters: what becomes of a
    value that does not is the engine's, which refuses it or stores what
    it makes of it. *)
Definition save (products : gmap UUID Product.t)
    (warehouses : gmap UUID Warehouse.t) (table : list t) (m : t)
  : result (list t) :=
  _ ← column_insert reference_id_field "reference_id" (reference_id m);
  _ ← primary_key_insert "id" (id <$> table) (id m);
  _ ← ForeignKey_insert "product_id" products (product m);
  _ ← ForeignKey_insert "warehouse_id" warehouses (warehouse m);
  Ok (table ++ [m]).
End StockMovement.

(** ** finance/models.py *)

Module Account.
Definition ACCOUNT_TYPE_CHOICES : list (string * string) :=
  [("ASSET", "Asset"); ("LIABILITY", "Liability");
   ("INCOME", "Income"); ("EXPENSE", "Expense")].
Record t : Type := {
  id : UUID;
  name : string;
  account_type : string;
  is_active : bool;
}.
End Account.

Module LedgerEntry.
Definition REFERENCE_TYPE_CHOICES : list (string * string) :=
  [("SALE", "sale"); ("REFUND", "refund"); ("ADJUSTMENT", "adjustment")].

Record t : Type := {
  id : UUID;
  account : UUID;
  amount : Z;
  reference_type : string;
  reference_id : UUID;
  created_at : Z;
}.

Definition account_on_delete : OnDelete := PROTECT.
Definition amount_field : DecimalField :=
  {| max_digits := 15; decimal_places := 2 |}.

Definition field_names : list string :=
  ["id"; "account"; "amount"; "reference_type"; "reference_id"; "created_at"].

Definition setattr (e : t) (field : string) (v : FieldValue) : t :=
  let mk i a am rt r ca :=
    {| id := i; account := a; amount := am; reference_type := rt;
       reference_id := r; created_at := ca |} in
  let '{| id := i; account := a; amount := am; reference_type := rt;
          reference_id := r; created_at := ca |} := e in
  match v with
  | VUUID u =>
      if decide (field = "id") then mk u a am rt r ca
      else if decide (field = "account") then mk i u am rt r ca
      else if decide (field = "reference_id") then mk i a am rt u ca
      else e
  | VStr s =>
      if decide (field = "reference_type") then mk i a am s r ca else e
  | VDecimal z =>
      if decide (field = "amount") then mk i a z rt r ca else e
  | VDateTime z =>
      if decide (field = "created_at") then mk i a am rt r z else e
  | VNull => e
  end.
End LedgerEntry.

(** ** sales/models.py *)

Module Sale.
Definition STATUS_CHOICES : list (string * string) :=
  [("PENDING", "Pending"); ("COMPLETED", "Completed");
   ("VOIDED", "Voided"); ("REFUNDED", "Refunded")].

Record t : Type := {
  id : UUID;
  sale_number : string;
  warehouse : UUID;
  sold_by : UUID;
  status : string;
  subtotal : Z;
  tax_total : Z;
  discount_total : Z;
  grand_total : Z;
  created_at : Z;
}.

Definition warehouse_on_delete : OnDelete := PROTECT.
Definition sold_by_on_delete : OnDelete := PROTECT.

Definition subtotal_field : DecimalField :=
  {| max_digits := 5; decimal_places := 2 |}.
Definition tax_total_field : DecimalField :=
  {| max_digits := 15; decimal_places := 2 |}.
Definition discount_total_field : DecimalField :=
  {| max_digits := 15; decimal_places := 2 |}.
Definition grand_total_field : DecimalField :=
  {| max_digits := 15; decimal_places := 2 |}.

Definition set_status (s : string) (x : t) : t :=
  {| id := id x; sale_number := sale_number x; warehouse := warehouse x;
     sold_by := sold_by x; status := s; subtotal := subtotal x;
     tax_total := tax_total x; discount_total := discount_total x;
     grand_total := grand_total x; created_at := created_at x |}.

Definition setattr (x : t) (field : string) (v : FieldValue) : t :=
  let mk i n w sb st sub tax disc gt ca :=
    {| id := i; sale_number := n; warehouse := w; sold_by := sb;
       status := st; subtotal := sub; tax_total := tax;
       discount_total := disc; grand_total := gt; created_at := ca |} in
  let '{| id := i; sale_number := n; warehouse := w; sold_by := sb;
          status := st; subtotal := sub; tax_total := tax;
          discount_total := disc; grand_total := gt; created_at := ca |} := x in
  match v with
  | VUUID u =>
      if decide (field = "id") then mk u n w sb st sub tax disc gt ca
      else if decide (field = "warehouse") then mk i n u sb st sub tax disc gt ca
      else if decide (field = "sold_by") then mk i n w u st sub tax disc gt ca
      else x
  | VStr s =>
      if decide (field = "sale_number") then mk i s w sb st sub tax disc gt ca
      else if decide (field = "status") then mk i n w sb s sub tax disc gt ca
      else x
  | VDecimal z =>
      if decide (field = "subtotal") then mk i n w sb st z tax disc gt ca
      else if decide (field = "tax_total") then mk i n w sb st sub z disc gt ca
      else if decide (field = "discount_total") then mk i n w sb st sub tax z gt ca
      else if decide (field = "grand_total") then mk i n w sb st sub tax disc z ca
      else x
  | VDateTime z =>
      if decide (field = "created_at") then mk i n w sb st sub tax disc gt z
      else x
  | VNull => x
  end.

(** The column checks of a stored row. *)
Definition stored (x : t) : bool :=
  representable subtotal_field (subtotal x)
  && representable tax_total_field (tax_total x)
  && representable discount_total_field (discount_total x)
  && representable grand_total_field (grand_total x).
End Sale.

Module SaleItem.
Record t : Type := {
  id : UUID;
  sale : UUID;
  product : UUID;
  quantity : Z;
  unit_price : Z;
  line_total : Z;
}.

Definition sale_on_delete : OnDelete := PROTECT.
Definition product_on_delete : OnDelete := PROTECT.
Definition quantity_field : DecimalField :=
  {| max_digits := 15; decimal_places := 3 |}.
Definition unit_price_field : DecimalField :=
  {| max_digits := 15; decimal_places := 3 |}.
Definition line_total_field : DecimalField :=
  {| max_digits := 15; decimal_places := 2 |}.

Definition field_names : list string :=
  ["id"; "sale"; "product"; "quantity"; "unit_price"; "line_total"].

Definition setattr (x : t) (field : string) (v : FieldValue) : t :=
  let mk i s p q up lt :=
    {| id := i; sale := s; product := p; quantity := q;
       unit_price := up; line_total := lt |} in
  let '{| id := i; sale := s; product := p; quantity := q;
          unit_price := up; line_total := lt |} := x in
  match v with
  | VUUID u =>
      if decide (field = "id") then mk u s p q up lt
      else if decide (field = "sale") then mk i u p q up lt
      else if decide (field = "product") then mk i s u q up lt
      else x
  | VDecimal z =>
      if decide (field = "quantity") then mk i s p z up lt
      else if decide (field = "unit_price") then mk i s p q z lt
      else if decide (field = "line_total") then mk i s p q up z
      else x
  | _ => x
  end.
End SaleItem.

Module Payments.
Definition PAYMENT_METHOD_CHOICES : list (string * string) :=
  [("CASH", "Cash"); ("MPESA", "M-Pesa"); ("CARD", "Card");
   ("BANK", "Bank Transfer")].
Definition amount_field : DecimalField :=
  {| max_digits := 15; decimal_places := 2 |}.
End Payments.

(** ** audit/models.py *)

(** A [JSONField] value. *)
Local Unset Elimination Schemes.
Inductive JSON : Type :=
| JNull
| JString (s : string)
| JNumber (z : Z)
| JArray (items : list JSON)
| JObject (members : list (string * JSON)).
Local Set Elimination Schemes.

Module AuditLog.
Definition ACTION_CHOICES : list (string * string) :=
  [("CREATE", "Create"); ("UPDATE", "Update");
   ("DELETE", "Delete"); ("VOID", "Void")].
Record t : Type := {
  id : UUID;
  user : UUID;
  action : string;
  entity_type : string;
  entity_id : UUID;
  before_state : option JSON;
  after_state : option JSON;
  created_at : Z;
}.
End AuditLog.

(** ** The database *)

Record DB : Type := {
  engine : Engine;
  categories : gmap UUID Category.t;
  products : gmap UUID Product.t;
  warehouses : gmap UUID Warehouse.t;
  accounts : gmap UUID Account.t;
  stock_movements : list StockMovement.t;
  ledger_entries : list LedgerEntry.t;
  sales : gmap UUID Sale.t;
  sale_items : gmap UUID SaleItem.t;
  audit_logs : list AuditLog.t;
}.

Definition set_categories (v : gmap UUID Category.t) (db : DB) : DB :=
  {| engine := engine db;
     categories := v; products := products db; warehouses := warehouses db;
     accounts := accounts db; stock_movements := stock_movements db;
     ledger_entries := ledger_entries db; sales := sales db;
     sale_items := sale_items db; audit_logs := audit_logs db |}.
Definition set_products (v : gmap UUID Product.t) (db : DB) : DB :=
  {| engine := engine db;
     categories := categories db; products := v; warehouses := warehouses db;
     accounts := accounts db; stock_movements := stock_movements db;
     ledger_entries := ledger_entries db; sales := sales db;
     sale_items := sale_items db; audit_logs := audit_logs db |}.
Definition set_warehouses (v : gmap UUID Warehouse.t) (db : DB) : DB :=
  {| engine := engine db;
     categories := categories db; products := products db; warehouses := v;
     accounts := accounts db; stock_movements := stock_movements db;
     ledger_entries := ledger_entries db; sales := sales db;
     sale_items := sale_items db; audit_logs := audit_logs db |}.
Definition set_accounts (v : gmap UUID Account.t) (db : DB) : DB :=
  {| engine := engine db;
     categories := categories db; products := products db;
     warehouses := warehouses db; accounts := v;
     stock_movements := stock_movements db;
     ledger_entries := ledger_entries db; sales := sales db;
     sale_items := sale_items db; audit_logs := audit_logs db |}.
Definition set_stock_movements (v : list StockMovement.t) (db : DB) : DB :=
  {| engine := engine db;
     categories := categories db; products := products db;
     warehouses := warehouses db; accounts := accounts db;
     stock_movements := v; ledger_entries := ledger_entries db;
     sales := sales db; sale_items := sale_items db;
     audit_logs := audit_logs db |}.
Definition set_ledger_entries (v : list LedgerEntry.t) (db : DB) : DB :=
  {| engine := engine db;
     categories := categories db; products := products db;
     warehouses := warehouses db; accounts := accounts db;
     stock_movements := stock_movements db; ledger_entries := v;
     sales := sales db; sale_items := sale_items db;
     audit_logs := audit_logs db |}.
Definition set_sales (v : gmap UUID Sale.t) (db : DB) : DB :=
  {| engine := engine db;
     categories := categories db; products := products db;
     warehouses := warehouses db; accounts := accounts db;
     stock_movements := stock_movements db;
     ledger_entries := ledger_entries db; sales := v;
     sale_items := sale_items db; audit_logs := audit_logs db |}.
Definition set_sale_items (v : gmap UUID SaleItem.t) (db : DB) : DB :=
  {| engine := engine db;
     categories := categories db; products := products db;
     warehouses := warehouses db; accounts := accounts db;
     stock_movements := stock_movements db;
     ledger_entries := ledger_entries db; sales := sales db; sale_items := v;
     audit_logs := audit_logs db |}.
Definition set_audit_logs (v : list AuditLog.t) (db : DB) : DB :=
  {| engine := engine db;
     categories := categories db; products := products db;
     warehouses := warehouses db; accounts := accounts db;
     stock_movements := stock_movements db;
     ledger_entries := ledger_entries db; sales := sales db;
     sale_items := sale_items db; audit_logs := v |}.

(** No rows, on PostgreSQL. *)
Definition empty_db : DB :=
  {| engine := postgresql;
     categories := ∅; products := ∅; warehouses := ∅; accounts := ∅;
     stock_movements := [];
     ledger_entries := []; sales := ∅; sale_items := ∅; audit_logs := [] |}.

(** ** rest_framework: requests and responses *)

Module RestFramework.

(** A request as the views read it.  [method] is the lower-cased HTTP
    method. *)
Record Request : Type := {
  method : string;
  query_params : gmap string string;
  data : list (string * FieldValue);
  user : UUID;
}.

(** The Python values a view reaches from the request by attribute
    access. *)
Inductive PyValue : Type :=
| PyQueryDict (d : gmap string string)
| PyBoundGet (d : gmap string string)
| PyData (d : list (string * FieldValue))
| PyUser (u : UUID)
| PyStr (s : string).

(** [request.<name>]: the attributes [rest_framework.request.Request]
    offers to a view; any other name raises [AttributeError]. *)
Definition Request_getattr (request : Request) (name : string)
  : result PyValue :=
  if decide (name = "query_params") then Ok (PyQueryDict (query_params request))
  else if decide (name = "data") then Ok (PyData (data request))
  else if decide (name = "user") then Ok (PyUser (user request))
  else if decide (name = "method") then Ok (PyStr (method request))
  else Raise (AttributeError name).

(** [v.<name>] on such a value: a [QueryDict] has [get]. *)
Definition getattr (v : PyValue) (name : string) : result PyValue :=
  match v with
  | PyQueryDict d =>
      if decide (name = "get") then Ok (PyBoundGet d)
      else Raise (AttributeError name)
  | _ => Raise (AttributeError name)
  end.

(** [f(key)] for a bound [QueryDict.get]. *)
Definition call (f : PyValue) (key : string) : result (option string) :=
  match f with
  | PyBoundGet d => Ok (d !! key)
  | _ => Raise TypeError
  end.

Inductive Route : Type :=
| ListRoute
| DetailRoute (pk : UUID).

(** The actions of a [ModelViewSet]. *)
Inductive Action : Type :=
| list_action
| create_action
| retrieve_action (pk : UUID)
| update_action (pk : UUID)
| partial_update_action (pk : UUID)
| destroy_action (pk : UUID).

(** The action a router binds to a method of a [ModelViewSet]. *)
Definition ModelViewSet_action (route : Route) (m : string) : option Action :=
  match route with
  | ListRoute =>
      if decide (m = "get") then Some list_action
      else if decide (m = "post") then Some create_action
      else None
  | DetailRoute pk =>
      if decide (m = "get") then Some (retrieve_action pk)
      else if decide (m = "put") then Some (update_action pk)
      else if decide (m = "patch") then Some (partial_update_action pk)
      else if decide (m = "delete") then Some (destroy_action pk)
      else None
  end.

(** [APIView.dispatch]: a method outside [http_method_names], or one the
    route binds no action to, is answered 405 by
    [http_method_not_allowed]. *)
Definition dispatch (http_method_names : list string) (route : Route)
    (request : Request) : option Action :=
  if bool_decide (method request ∈ http_method_names)
  then ModelViewSet_action route (method request)
  else None.

(** *** Serializers *)

(** A serializer class: the [fields] of its [Meta], the other names bound
    in the body of [Meta], and the methods bound in the body of the
    class itself. *)
Record SerializerClass : Type := {
  Meta_fields : list string;
  Meta_names : list (string * (FieldValue → result FieldValue));
  methods : list (string * (FieldValue → result FieldValue));
}.

(** [getattr(self, 'validate_' + field_name, None)]: looked up on the
    serializer, not inside its [Meta]. *)
Definition validate_method (cls : SerializerClass) (field_name : string)
  : option (FieldValue → result FieldValue) :=
  snd <$> List.find (λ nm, bool_decide (nm.1 = "validate_" +:+ field_name))
                    (methods cls).

(** The serializer field a [ModelSerializer] builds for a model field. *)
Inductive SerializerField : Type :=
| DecimalF (f : DecimalField)
| PrimaryKeyRelatedF (queryset : UUID → bool)
| ChoiceF (choices : list (string * string))
| CharF (required : bool).

Definition run_validation (kind : SerializerField) (v : FieldValue)
  : result FieldValue :=
  match kind, v with
  | DecimalF f, VDecimal z => _ ← DecimalField_run_validation f z; Ok v
  | PrimaryKeyRelatedF queryset, VUUID u =>
      if queryset u then Ok v
      else Raise (ValidationError "Invalid pk - object does not exist.")
  | ChoiceF cs, VStr s =>
      if bool_decide (s ∈ cs.*1) then Ok v
      else Raise (ValidationError "Not a valid choice.")
  | CharF _, VStr s => Ok v
  | _, _ => Raise (ValidationError "Incorrect type.")
  end.

(** [Serializer.to_internal_value]: every declared field is read from the
    data, validated by its own field class, then by the serializer's
    [validate_<name>] method when it has one.  The first failure is the
    one reported. *)
Fixpoint to_internal_value (cls : SerializerClass)
    (fields : list (string * SerializerField))
    (data : list (string * FieldValue)) : result (list (string * FieldValue)) :=
  match fields with
  | [] => Ok []
  | (field_name, kind) :: rest =>
      match snd <$> List.find (λ nv, bool_decide (nv.1 = field_name)) data with
      | None =>
          match kind with
          | CharF false => to_internal_value cls rest data
          | _ => Raise (ValidationError "This field is required.")
          end
      | Some primitive_value =>
          validated_value ← run_validation kind primitive_value;
          validated_value ←
            match validate_method cls field_name with
            | Some m => m validated_value
            | None => Ok validated_value
            end;
          others ← to_internal_value cls rest data;
          Ok ((field_name, validated_value) :: others)
      end
  end.

Definition HTTP_200_OK : nat := 200.
Definition HTTP_201_CREATED : nat := 201.
Definition HTTP_204_NO_CONTENT : nat := 204.
Definition HTTP_400_BAD_REQUEST : nat := 400.
Definition HTTP_403_FORBIDDEN : nat := 403.
Definition HTTP_404_NOT_FOUND : nat := 404.
Definition HTTP_405_METHOD_NOT_ALLOWED : nat := 405.

End RestFramework.
Import RestFramework.

(** ** inventory/serializers.py *)

Module InventorySerializers.

(** The classes the module binds at its top level.  [StockLevelSerializer]
    is declared inside the body of [StockMovementCreate]. *)
Definition module_names : list string :=
  ["CategorySerializer"; "ProductSerializer"; "ProductListSerializer";
   "WarehouseSerializer"; "StockMovementSerializer"; "StockMovementCreate"].

Definition StockMovementCreate_names : list string :=
  ["Meta"; "StockLevelSerializer"].

Definition StockMovementCreate_fields : list string :=
  ["product"; "warehouse"; "movement_type"; "quantity";
   "reference_type"; "reference_id"; "created_by"].

(** [StockMovementSerializer(movement).data] for a movement whose product,
    warehouse and user are stored: the [quantity] field quantizes the value
    to three places in a context of fifteen digits, which raises
    [decimal.InvalidOperation] for a value of more digits. *)
Definition StockMovementSerializer_data (movement : StockMovement.t)
  : result StockMovement.t :=
  if representable StockMovement.quantity_field
       (StockMovement.quantity movement)
  then Ok movement
  else Raise InvalidOperation.

End InventorySerializers.

(** ** inventory/views.py *)

Module InventoryViews.

Definition imported_serializers : list string :=
  ["CategorySerializer"; "ProductSerializer"; "ProductListSerializer";
   "WarehouseSerializer"; "StockMovementSerializer";
   "StockMovementCreateSerializer"; "StockLevelSerializer"].

(** [from .serializers import (...)] at the head of the module. *)
Definition module_import : result unit :=
  import_from InventorySerializers.module_names imported_serializers.

(** *** The stock query of [StockViewSet.list] *)

(** The columns named in [values(...)]: [product_id], [product__sku],
    [product__name], [warehouse_id], [warehouse__name]. *)
Definition Key : Type := UUID * string * string * UUID * string.

(** The joined row of a movement; the foreign keys are not nullable, so
    the joins are inner joins. *)
Definition values (db : DB) (m : StockMovement.t) : option Key :=
  p ← products db !! StockMovement.product m;
  w ← warehouses db !! StockMovement.warehouse m;
  Some (StockMovement.product m, Product.sku p, Product.name p,
        StockMovement.warehouse m, Warehouse.name w).

(** [filter(product_id=...)] and [filter(warehouse_id=...)], each applied
    only when its parameter was given. *)
Definition matches {A} (param : option A) (v : A) : Prop :=
  match param with
  | Some p => v = p
  | None => True
  end.

Global Instance matches_dec `{EqDecision A} (param : option A) (v : A) :
  Decision (matches param v).
Proof. destruct param; simpl; apply _. Defined.

Definition selected (product_id warehouse_id : option UUID)
    (m : StockMovement.t) : Prop :=
  matches product_id (StockMovement.product m) ∧
  matches warehouse_id (StockMovement.warehouse m).

Global Instance selected_dec product_id warehouse_id m :
  Decision (selected product_id warehouse_id m).
Proof. unfold selected; apply _. Defined.

(** The rows the aggregation reads: group columns, [quantity],
    [created_at]. *)
Definition rows (db : DB) (product_id warehouse_id : option UUID)
  : list (Key * (Z * Z)) :=
  omap (λ m, k ← values db m;
             Some (k, (StockMovement.quantity m, StockMovement.created_at m)))
       (filter (selected product_id warehouse_id) (stock_movements db)).

(** GROUP BY the [values] columns: one row is put into its group, which
    holds the quantities of its rows and the latest [created_at]. *)
Definition group_step (groups : gmap Key (list Z * Z)) (r : Key * (Z * Z))
  : gmap Key (list Z * Z) :=
  partial_alter
    (λ g, Some match g with
               | None => ([r.2.1], r.2.2)
               | Some a => (a.1 ++ [r.2.1], Z.max a.2 r.2.2)
               end)
    r.1 groups.

Definition group_by (rs : list (Key * (Z * Z))) : gmap Key (list Z * Z) :=
  foldl group_step ∅ rs.

(** [Sum('quantity')] and [Max('created_at')] of every group; the sum is
    the engine's. *)
Definition annotate (e : Engine) (rs : list (Key * (Z * Z)))
  : gmap Key (Decimal * Z) :=
  (λ g, (SUM e g.1, g.2)) <$> group_by rs.

(** [.annotate(current_quantity=Sum(..), last_movement=Max(..))] on the
    filtered movements. *)
Definition annotated (db : DB) (product_id warehouse_id : option UUID)
  : gmap Key (Decimal * Z) :=
  annotate (engine db) (rows db product_id warehouse_id).

(** [.filter(current_quantity__gt=0)], a HAVING clause on the sum. *)
Definition stock_levels (db : DB) (product_id warehouse_id : option UUID)
  : gmap Key (Decimal * Z) :=
  filter (λ g, 0 < coefficient g.2.1) (annotated db product_id warehouse_id).

(** The [current_quantity] of a group, when the group exists. *)
Definition current_quantity (groups : gmap Key (Decimal * Z)) (k : Key)
  : option Decimal :=
  fst <$> groups !! k.

Definition last_movement (groups : gmap Key (Decimal * Z)) (k : Key)
  : option Z :=
  snd <$> groups !! k.

Inductive Body : Type :=
| StockLevels (levels : gmap Key (Decimal * Z))
| Movements (ms : list StockMovement.t)
| Movement (m : StockMovement.t)
| Error (message : string)
| NoBody.

Record Response : Type := {
  status : nat;
  body : Body;
}.

(** A query parameter that is present and not empty, as a UUID. *)
Definition uuid_param (v : option string) : result (option UUID) :=
  match truthy v with
  | Some s => u ← UUID_to_python s; Ok (Some u)
  | None => Ok None
  end.

(** [StockViewSet.list]. *)
Definition StockViewSet_list (request : Request) (db : DB) : result Response :=
  product_id ← (q ← Request_getattr request "query";
                f ← getattr q "params_get";
                call f "product_id");
  warehouse_id ← (q ← Request_getattr request "query";
                  ps ← getattr q "params";
                  f ← getattr ps "get";
                  call f "warehouse_id");
  p ← uuid_param product_id;
  w ← uuid_param warehouse_id;
  Ok {| status := HTTP_200_OK; body := StockLevels (stock_levels db p w) |}.

(** *** [StockMovementViewSet] *)

Definition http_method_names : list string := ["get"; "post"].

(** [self.request.query_params.get(name)]. *)
Definition query_param (request : Request) (name : string)
  : result (option string) :=
  q ← Request_getattr request "query_params";
  f ← getattr q "get";
  call f name.

(** [filter(movement_type=...)], applied only when the parameter was
    given: the engine compares the column with the parameter. *)
Definition varchar_matches (e : Engine) (param : option string) (v : string)
  : Prop :=
  match param with
  | Some text => varchar_eq e v text = true
  | None => True
  end.

Global Instance varchar_matches_dec e param v :
  Decision (varchar_matches e param v).
Proof. destruct param; simpl; apply _. Defined.

(** [order_by('-created_at')]. *)
Definition newest_first (a b : StockMovement.t) : Prop :=
  StockMovement.created_at b ≤ StockMovement.created_at a.

Global Instance newest_first_dec a b : Decision (newest_first a b).
Proof. unfold newest_first; apply _. Defined.

(** [get_queryset]: newest first, with the optional filters. *)
Definition get_queryset (request : Request) (db : DB)
  : result (list StockMovement.t) :=
  let queryset :=
    merge_sort newest_first (stock_movements db) in
  product_id ← query_param request "product_id";
  p ← uuid_param product_id;
  warehouse_id ← query_param request "warehouse_id";
  w ← uuid_param warehouse_id;
  movement_type ← query_param request "movement_type";
  Ok (filter (λ m, varchar_matches (engine db) (truthy movement_type)
                                   (StockMovement.movement_type m))
        (filter (selected p w) queryset)).

Section StockMovementViewSet.

(** The serializer class the view names for [create] is not bound by
    inventory/serializers.py; its validation is a parameter.  It yields
    the movement to be saved, before [id] and [created_at] are given. *)
Variable StockMovementCreateSerializer :
  DB → list (string * FieldValue) → result StockMovement.t.

Definition ADJUSTMENT_only : string :=
  "Manual movements must be of type ADJUSTMENT. Other types are created automatically".

(** [create]: only ADJUSTMENT may be posted; the movement is stamped
    with the user and saved, then serialized for the response.  The view
    is [@transaction.atomic]: an exception after the INSERT undoes it. *)
Definition create (uuid4 : UUID) (now : Z) (request : Request) (db : DB)
  : result (DB * Response) :=
  validated_data ← StockMovementCreateSerializer db (data request);
  if decide (StockMovement.movement_type validated_data ≠ "ADJUSTMENT") then
    Ok (db, {| status := HTTP_400_BAD_REQUEST;
               body := Error ADJUSTMENT_only |})
  else
    let movement :=
      StockMovement.setattr
        (StockMovement.setattr
           (StockMovement.setattr validated_data "created_by"
              (VUUID (user request)))
           "id" (VUUID uuid4))
        "created_at" (VDateTime now) in
    table ← StockMovement.save (products db) (warehouses db)
              (stock_movements db) movement;
    response_data ← InventorySerializers.StockMovementSerializer_data movement;
    Ok (set_stock_movements table db,
        {| status := HTTP_201_CREATED; body := Movement response_data |}).

(** What [UpdateModelMixin.update] does to the row [pk]. *)
Definition update (pk : UUID) (request : Request) (db : DB) : DB * Response :=
  match List.find (λ m, bool_decide (StockMovement.id m = pk))
                  (stock_movements db) with
  | Some _ =>
      (set_stock_movements
         ((λ m, if decide (StockMovement.id m = pk)
                then foldl (λ o nv, StockMovement.setattr o nv.1 nv.2)
                           m (data request)
                else m) <$> stock_movements db) db,
       {| status := HTTP_200_OK; body := NoBody |})
  | None => (db, {| status := HTTP_404_NOT_FOUND; body := NoBody |})
  end.

(** What [DestroyModelMixin.destroy] does to the row [pk]. *)
Definition destroy (pk : UUID) (db : DB) : DB * Response :=
  match List.find (λ m, bool_decide (StockMovement.id m = pk))
                  (stock_movements db) with
  | Some _ =>
      (set_stock_movements
         (filter (λ m, StockMovement.id m ≠ pk) (stock_movements db)) db,
       {| status := HTTP_204_NO_CONTENT; body := NoBody |})
  | None => (db, {| status := HTTP_404_NOT_FOUND; body := NoBody |})
  end.

(** A request to the movement endpoints, through [dispatch] with the
    view's [http_method_names]. *)
Definition StockMovementViewSet (uuid4 : UUID) (now : Z) (route : Route)
    (request : Request) (db : DB) : result (DB * Response) :=
  match dispatch http_method_names route request with
  | Some list_action =>
      ms ← get_queryset request db;
      Ok (db, {| status := HTTP_200_OK; body := Movements ms |})
  | Some (retrieve_action pk) =>
      ms ← get_queryset request db;
      match List.find (λ m, bool_decide (StockMovement.id m = pk)) ms with
      | Some m => Ok (db, {| status := HTTP_200_OK; body := Movement m |})
      | None => Ok (db, {| status := HTTP_404_NOT_FOUND; body := NoBody |})
      end
  | Some create_action => create uuid4 now request db
  | Some (update_action pk) => Ok (update pk request db)
  | Some (partial_update_action pk) => Ok (update pk request db)
  | Some (destroy_action pk) => Ok (destroy pk db)
  | None =>
      Ok (db, {| status := HTTP_405_METHOD_NOT_ALLOWED; body := NoBody |})
  end.

End StockMovementViewSet.

End InventoryViews.

(** ** inventory/admin.py *)

Module InventoryAdmin.

(** [ProductAdmin]: everything but [id] and [created_at] can be edited. *)
Definition ProductAdmin_readonly_fields : list string := ["id"; "created_at"].

Definition StockMovementAdmin_readonly_fields : list string :=
  ["id"; "product"; "warehouse"; "movement_type"; "quantity";
   "reference_type"; "reference_id"; "created_by"; "created_at"].
Definition StockMovementAdmin_has_add_permission : bool := false.
Definition StockMovementAdmin_has_delete_permission
    (obj : option StockMovement.t) : bool := false.

End InventoryAdmin.

(** ** finance/serializers.py *)

Module FinanceSerializers.

(** [obj.ledger_entries.all()], the reverse of [LedgerEntry.account]. *)
Definition ledger_entries_all (db : DB) (obj : Account.t)
  : list LedgerEntry.t :=
  filter (λ e, LedgerEntry.account e = Account.id obj) (ledger_entries db).

(** [AccountSerializer.get_balance]. *)
Definition get_balance (db : DB) (obj : Account.t) : Z :=
  let total := builtin_sum (LedgerEntry.amount <$> ledger_entries_all db obj) in
  total.

End FinanceSerializers.

(** ** finance/admin.py *)

Module FinanceAdmin.

Definition LedgerEntryAdmin_readonly_fields : list string :=
  ["id"; "account"; "amount"; "reference_type"; "reference_id"; "created_at"].
Definition LedgerEntryAdmin_has_add_permission : bool := false.
Definition LedgerEntryAdmin_has_delete_permission
    (obj : option LedgerEntry.t) : bool := false.

End FinanceAdmin.

(** ** sales/serializers.py *)

Module SalesSerializers.

(** [validate_quantity], as written in the body of
    [SaleItemCreateSerializer.Meta]. *)
Definition validate_quantity (value : FieldValue) : result FieldValue :=
  match value with
  | VDecimal z =>
      if bool_decide (z ≤ 0)
      then Raise (ValidationError "Qty must be greater than 0")
      else Ok value
  | _ => Raise TypeError
  end.

(** [PaymentCreateSerializer.validate_amount]. *)
Definition validate_amount (value : FieldValue) : result FieldValue :=
  match value with
  | VDecimal z =>
      if bool_decide (z ≤ 0)
      then Raise (ValidationError "Amount must be greater than zero")
      else Ok value
  | _ => Raise TypeError
  end.

Definition SaleItemCreateSerializer : SerializerClass :=
  {| Meta_fields := ["product"; "quantity"];
     Meta_names := [("validate_quantity", validate_quantity)];
     methods := [] |}.

Definition PaymentCreateSerializer : SerializerClass :=
  {| Meta_fields :=
       ["payment_method"; "amount"; "reference_code"; "received_by"];
     Meta_names := [];
     methods := [("validate_amount", validate_amount)] |}.

(** The fields built from the [SaleItem] model for [Meta.fields]. *)
Definition SaleItemCreateSerializer_fields (db : DB)
  : list (string * SerializerField) :=
  [("product",
    PrimaryKeyRelatedF (λ u, bool_decide (is_Some (products db !! u))));
   ("quantity", DecimalF SaleItem.quantity_field)].

(** The fields built from the [Payments] model; [reference_code] is
    declared [blank=True]. *)
Definition PaymentCreateSerializer_fields (users : UUID → bool)
  : list (string * SerializerField) :=
  [("payment_method", ChoiceF Payments.PAYMENT_METHOD_CHOICES);
   ("amount", DecimalF Payments.amount_field);
   ("reference_code", CharF false);
   ("received_by", PrimaryKeyRelatedF users)].

(** [serializer.is_valid(raise_exception=True)] followed by
    [serializer.validated_data]. *)
Definition SaleItemCreateSerializer_is_valid (db : DB)
    (data : list (string * FieldValue)) : result (list (string * FieldValue)) :=
  to_internal_value SaleItemCreateSerializer
    (SaleItemCreateSerializer_fields db) data.

Definition PaymentCreateSerializer_is_valid (users : UUID → bool)
    (data : list (string * FieldValue)) : result (list (string * FieldValue)) :=
  to_internal_value PaymentCreateSerializer
    (PaymentCreateSerializer_fields users) data.

(** [SaleItemSerializer]: [product_sku] and [product_name] are read
    through the product, [unit_price] and the other model fields from the
    item's own row. *)
Definition SaleItemSerializer_to_representation (db : DB) (item : SaleItem.t)
  : result (list (string * FieldValue)) :=
  match products db !! SaleItem.product item with
  | Some product =>
      Ok [("id", VUUID (SaleItem.id item));
          ("sale", VUUID (SaleItem.sale item));
          ("product", VUUID (SaleItem.product item));
          ("product_sku", VStr (Product.sku product));
          ("product_name", VStr (Product.name product));
          ("quantity", VDecimal (SaleItem.quantity item));
          ("unit_price", VDecimal (SaleItem.unit_price item));
          ("line_total", VDecimal (SaleItem.line_total item))]
  | None => Raise (DoesNotExist "Product")
  end.

End SalesSerializers.

(** ** sales/admin.py *)

Module SalesAdmin.

Definition SaleItemInline_readonly_fields : list string :=
  ["id"; "product"; "quantity"; "unit_price"; "line_total"].

(** [SaleItemInline.has_delete_permission]: for an inline the object
    passed is the parent being edited, here the sale, and [obj.sale] is
    read on it. *)
Definition SaleItemInline_has_delete_permission (obj : option Sale.t)
  : result bool :=
  match obj with
  | Some o => Raise (AttributeError "sale")
  | None => Ok true
  end.

Definition SaleAdmin_readonly_fields : list string :=
  ["id"; "sale_number"; "created_at"].

(** [SaleAdmin.has_delete_permission]. *)
Definition SaleAdmin_has_delete_permission (obj : option Sale.t) : bool :=
  match obj with
  | Some o =>
      if bool_decide (Sale.status o ∈ ["COMPLETED"; "REFUNDED"]) then false
      else true
  | None => true
  end.

Definition SaleItemAdmin_readonly_fields : list string :=
  ["id"; "sale"; "product"; "quantity"; "unit_price"; "line_total"].
Definition SaleItemAdmin_has_add_permission : bool := false.

(** [SaleItemAdmin.has_delete_permission]: [obj.sale.status] is read
    through the item's sale. *)
Definition SaleItemAdmin_has_delete_permission (db : DB)
    (obj : option SaleItem.t) : result bool :=
  match obj with
  | Some o =>
      match sales db !! SaleItem.sale o with
      | Some sale =>
          if decide (Sale.status sale = "COMPLETED") then Ok false else Ok true
      | None => Raise (DoesNotExist "Sale")
      end
  | None => Ok true
  end.

End SalesAdmin.

(** ** The operations the applications offer

    Every write the views and admin classes of the source make possible,
    as one step function on the database.  An operation that raises leaves
    the database as it was. *)

Module Interface.

Import InventoryViews InventoryAdmin FinanceAdmin SalesAdmin.

Inductive Op : Type :=
(* inventory/views.py *)
| GET_stock (request : Request)
| stock_movements_request (uuid4 : UUID) (now : Z) (route : Route)
    (request : Request)
(* inventory/admin.py *)
| ProductAdmin_add (p : Product.t)
| ProductAdmin_change (pk : UUID) (posted : Product.t)
| ProductAdmin_delete (pk : UUID)
| WarehouseAdmin_save (w : Warehouse.t)
| WarehouseAdmin_delete (pk : UUID)
| StockMovementAdmin_add (m : StockMovement.t)
| StockMovementAdmin_change (pk : UUID) (form : list (string * FieldValue))
| StockMovementAdmin_delete (pk : UUID)
(* finance/admin.py *)
| AccountAdmin_save (a : Account.t)
| AccountAdmin_delete (pk : UUID)
| LedgerEntryAdmin_add (e : LedgerEntry.t)
| LedgerEntryAdmin_change (pk : UUID) (form : list (string * FieldValue))
| LedgerEntryAdmin_delete (pk : UUID)
(* sales/admin.py *)
| SaleAdmin_change (pk : UUID) (form : list (string * FieldValue))
| SaleAdmin_delete (pk : UUID)
| SaleItemInline_change (pk : UUID) (form : list (string * FieldValue))
| SaleItemInline_delete (sale pk : UUID)
| SaleItemAdmin_add (i : SaleItem.t)
| SaleItemAdmin_change (pk : UUID) (form : list (string * FieldValue))
| SaleItemAdmin_delete (pk : UUID)
(* the other viewsets whose deletions reach a foreign key of an event *)
| CategoryViewSet_destroy (pk : UUID)
| UserViewSet_destroy (pk : UUID).

Section Step.

Variable StockMovementCreateSerializer :
  DB → list (string * FieldValue) → result StockMovement.t.

Definition delete_product (pk : UUID) (db : DB) : result DB :=
  ms ← collect StockMovement.product_on_delete "StockMovement"
         (λ m, bool_decide (StockMovement.product m = pk))
         (stock_movements db);
  items ← collect_map SaleItem.product_on_delete "SaleItem"
            (λ i, bool_decide (SaleItem.product i = pk)) (sale_items db);
  Ok (set_products (delete pk (products db))
        (set_sale_items items (set_stock_movements ms db))).

Definition delete_warehouse (pk : UUID) (db : DB) : result DB :=
  ms ← collect StockMovement.warehouse_on_delete "StockMovement"
         (λ m, bool_decide (StockMovement.warehouse m = pk))
         (stock_movements db);
  ss ← collect_map Sale.warehouse_on_delete "Sale"
         (λ s, bool_decide (Sale.warehouse s = pk)) (sales db);
  Ok (set_warehouses (delete pk (warehouses db))
        (set_sales ss (set_stock_movements ms db))).

Definition delete_account (pk : UUID) (db : DB) : result DB :=
  es ← collect LedgerEntry.account_on_delete "LedgerEntry"
         (λ e, bool_decide (LedgerEntry.account e = pk))
         (ledger_entries db);
  Ok (set_accounts (delete pk (accounts db)) (set_ledger_entries es db)).

Definition delete_sale (pk : UUID) (db : DB) : result DB :=
  if SaleAdmin_has_delete_permission (sales db !! pk) then
    items ← collect_map SaleItem.sale_on_delete "SaleItem"
              (λ i, bool_decide (SaleItem.sale i = pk)) (sale_items db);
    Ok (set_sales (delete pk (sales db)) (set_sale_items items db))
  else Raise PermissionDenied.

Definition delete_sale_item (pk : UUID) (db : DB) : result DB :=
  allowed ← SaleItemAdmin_has_delete_permission db (sale_items db !! pk);
  if allowed : bool then Ok (set_sale_items (delete pk (sale_items db)) db)
  else Raise PermissionDenied.

(** The categories a deletion collects: the category itself and, through
    [parent], its descendants. *)
Definition child_of (pks : list UUID) (kv : UUID * Category.t) : Prop :=
  match Category.parent kv.2 with
  | Some p => p ∈ pks ∧ kv.1 ∉ pks
  | None => False
  end.

Global Instance child_of_dec pks kv : Decision (child_of pks kv).
Proof. unfold child_of. destruct (Category.parent kv.2); apply _. Defined.

Definition children_of (table : gmap UUID Category.t) (pks : list UUID)
  : list UUID :=
  (map_to_list (filter (child_of pks) table)).*1.

Fixpoint descendants (fuel : nat) (table : gmap UUID Category.t)
    (pks : list UUID) : list UUID :=
  match fuel with
  | O => pks
  | S fuel' => descendants fuel' table (pks ++ children_of table pks)
  end.

Definition delete_category (pk : UUID) (db : DB) : result DB :=
  collected ←
    match Category.parent_on_delete with
    | CASCADE => Ok (descendants (size (categories db)) (categories db) [pk])
    | PROTECT =>
        if bool_decide (children_of (categories db) [pk] = [])
        then Ok [pk] else Raise (ProtectedError "Category")
    end;
  ps ← collect_map Product.category_on_delete "Product"
         (λ p, bool_decide (Product.category p ∈ collected)) (products db);
  Ok (set_products ps
        (set_categories
           (filter (λ kv, kv.1 ∉ collected) (categories db)) db)).

(** The rows of the user table are not part of [DB]; what a deletion of a
    user does to the tables that refer to it is. *)
Definition delete_user (pk : UUID) (db : DB) : result DB :=
  ms ← collect StockMovement.created_by_on_delete "StockMovement"
         (λ m, bool_decide (StockMovement.created_by m = pk))
         (stock_movements db);
  ss ← collect_map Sale.sold_by_on_delete "Sale"
         (λ s, bool_decide (Sale.sold_by s = pk)) (sales db);
  Ok (set_sales ss (set_stock_movements ms db)).

Definition step (op : Op) (db : DB) : result DB :=
  match op with
  | GET_stock request =>
      _ ← StockViewSet_list request db; Ok db
  | stock_movements_request uuid4 now route request =>
      r ← StockMovementViewSet StockMovementCreateSerializer
             uuid4 now route request db;
      Ok r.1
  | ProductAdmin_add p =>
      match products db !! Product.id p with
      | Some _ => Raise (IntegrityError "id")
      | None => Ok (set_products (<[Product.id p := p]> (products db)) db)
      end
  | ProductAdmin_change pk posted =>
      Ok (set_products
            (alter (λ old, Product.changed old posted) pk (products db)) db)
  | ProductAdmin_delete pk => delete_product pk db
  | WarehouseAdmin_save w =>
      Ok (set_warehouses (<[Warehouse.id w := w]> (warehouses db)) db)
  | WarehouseAdmin_delete pk => delete_warehouse pk db
  | StockMovementAdmin_add m =>
      ms ← add_view StockMovementAdmin_has_add_permission m
             (stock_movements db);
      Ok (set_stock_movements ms db)
  | StockMovementAdmin_change pk form =>
      Ok (set_stock_movements
            (change_view StockMovementAdmin_readonly_fields
               StockMovement.setattr StockMovement.id pk form
               (stock_movements db)) db)
  | StockMovementAdmin_delete pk =>
      ms ← delete_view
             (StockMovementAdmin_has_delete_permission
                (list_get StockMovement.id pk (stock_movements db)))
             StockMovement.id pk (stock_movements db);
      Ok (set_stock_movements ms db)
  | AccountAdmin_save a =>
      Ok (set_accounts (<[Account.id a := a]> (accounts db)) db)
  | AccountAdmin_delete pk => delete_account pk db
  | LedgerEntryAdmin_add e =>
      es ← add_view LedgerEntryAdmin_has_add_permission e
             (ledger_entries db);
      Ok (set_ledger_entries es db)
  | LedgerEntryAdmin_change pk form =>
      Ok (set_ledger_entries
            (change_view LedgerEntryAdmin_readonly_fields
               LedgerEntry.setattr LedgerEntry.id pk form
               (ledger_entries db)) db)
  | LedgerEntryAdmin_delete pk =>
      es ← delete_view
             (LedgerEntryAdmin_has_delete_permission
                (list_get LedgerEntry.id pk (ledger_entries db)))
             LedgerEntry.id pk (ledger_entries db);
      Ok (set_ledger_entries es db)
  | SaleAdmin_change pk form =>
      match sales db !! pk with
      | Some obj =>
          (* the formsets of the inlines are built for the sale that is
             changed, before the form is saved *)
          _ ← SaleItemInline_has_delete_permission (Some obj);
          Ok (set_sales
                (alter (λ o, ModelAdmin_change SaleAdmin_readonly_fields
                               Sale.setattr o form) pk (sales db)) db)
      | None => Ok db
      end
  | SaleAdmin_delete pk => delete_sale pk db
  | SaleItemInline_change pk form =>
      (* the inline is a part of the change page of the item's sale; the
         foreign key to that sale is not a field of the inline's form *)
      match sale_items db !! pk ≫= λ item, sales db !! SaleItem.sale item with
      | Some obj =>
          _ ← SaleItemInline_has_delete_permission (Some obj);
          Ok (set_sale_items
                (alter (λ o, ModelAdmin_change
                               ("sale" :: SaleItemInline_readonly_fields)
                               SaleItem.setattr o form) pk (sale_items db))
                db)
      | None => Ok db
      end
  | SaleItemInline_delete sale pk =>
      match sales db !! sale with
      | Some obj =>
          allowed ← SaleItemInline_has_delete_permission (Some obj);
          if allowed : bool
          then Ok (set_sale_items (delete pk (sale_items db)) db)
          else Raise PermissionDenied
      | None => Ok db
      end
  | SaleItemAdmin_add i =>
      if SaleItemAdmin_has_add_permission
      then Ok (set_sale_items (<[SaleItem.id i := i]> (sale_items db)) db)
      else Raise PermissionDenied
  | SaleItemAdmin_change pk form =>
      Ok (set_sale_items
            (alter (λ o, ModelAdmin_change SaleItemAdmin_readonly_fields
                           SaleItem.setattr o form) pk (sale_items db)) db)
  | SaleItemAdmin_delete pk => delete_sale_item pk db
  | CategoryViewSet_destroy pk => delete_category pk db
  | UserViewSet_destroy pk => delete_user pk db
  end.

Definition apply (db : DB) (op : Op) : DB :=
  match step op db with
  | Ok db' => db'
  | Raise _ => db
  end.

Definition run (ops : list Op) (db : DB) : DB := foldl apply db ops.

End Step.

End Interface.

(** ** Reference definitions for the stated properties *)

Import InventoryViews.

(** The exact sum of a list of scaled decimal values. *)
Definition exact_decimal_sum (values : list Z) : Z := foldr Z.add 0 values.

(** An engine that adds the values of a numeric column exactly and hands
    the sum back at the scale of the column, as PostgreSQL and MySQL do.
    SQLite adds them as floating-point numbers and is not one. *)
Definition adds_exactly (e : Engine) : Prop :=
  ∀ values, SUM e values = thousandths (exact_decimal_sum values).

(** The values a group is made of: the [(quantity, created_at)] pairs of
    the rows with key [k], in row order. *)
Definition group_of (k : Key) (rs : list (Key * (Z * Z))) : list (Z * Z) :=
  snd <$> filter (λ r, r.1 = k) rs.

Definition merge_group (a : list Z * Z) (r : Z * Z) : list Z * Z :=
  (a.1 ++ [r.1], Z.max a.2 r.2).

(** The movements the query selects whose joined row is [k]. *)
Definition movements_of (db : DB) (product_id warehouse_id : option UUID)
    (k : Key) : list StockMovement.t :=
  filter (λ m, values db m = Some k)
         (filter (selected product_id warehouse_id) (stock_movements db)).

(** The joined row of the pair [(p, w)], when both rows exist. *)
Definition key_of (db : DB) (p w : UUID) : option Key :=
  P ← products db !! p;
  W ← warehouses db !! w;
  Some (p, Product.sku P, Product.name P, w, Warehouse.name W).

(** The movements of the pair [(p, w)] among those the query selects. *)
Definition pair_movements (db : DB) (product_id warehouse_id : option UUID)
    (p w : UUID) : list StockMovement.t :=
  filter (λ m, StockMovement.product m = p ∧ StockMovement.warehouse m = w)
         (filter (selected product_id warehouse_id) (stock_movements db)).


(** [sale.items.all()], the reverse of [SaleItem.sale]. *)
Definition items_all (db : DB) (x : Sale.t) : list SaleItem.t :=
  filter (λ i, SaleItem.sale i = Sale.id x) (map_to_list (sale_items db)).*2.

(** The subtotal recalculated from the line items. *)
Definition recomputed_subtotal (db : DB) (x : Sale.t) : Z :=
  exact_decimal_sum (SaleItem.line_total <$> items_all db x).

(** What one operation may do to the two event tables. *)
Definition events_kept (db db' : DB) : Prop :=
  stock_movements db `prefix_of` stock_movements db'
  ∧ ledger_entries db' = ledger_entries db.

(** The items found after an operation were there before it, with the
    same unit price. *)
Definition prices_kept (db db' : DB) : Prop :=
  ∀ pk item', sale_items db' !! pk = Some item' →
    ∃ item, sale_items db !! pk = Some item
            ∧ SaleItem.unit_price item' = SaleItem.unit_price item.

(** ** The sale workflow

    The sources hold the models, serializers and admin classes of the
    [sales] application; the operation that completes a sale is described
    by the specification only. *)

Module Workflow.

(** Modelled from the spec: the error kinds of the workflow, which no
    source file declares. *)
Inductive WorkflowError : Type :=
| ValidationError
| InvalidStateError
| InsufficientStockError
| ConflictError
| ReferentialIntegrityError
| StorageError.

(** Modelled from the spec: the result of a workflow call, the ids of the
    events it generated or the error it was rejected with; no source file
    declares it. *)
Inductive Outcome : Type :=
| Completed (event_ids : list UUID)
| Rejected (e : WorkflowError).

(** Modelled from the spec: [currentStock(productId, warehouseId)], the sum
    of the signed quantities of the matching movements, zero if none exist;
    the sources have no such function. *)
Definition currentStock (db : DB) (product warehouse : UUID) : Z :=
  exact_decimal_sum
    (StockMovement.quantity
       <$> filter (λ m, StockMovement.product m = product
                        ∧ StockMovement.warehouse m = warehouse)
                  (stock_movements db)).

(** Modelled from the spec: whether an item's product has
    [tracksStock = true]; the sources never read the flag. *)
Definition tracks_stock (db : DB) (item : SaleItem.t) : bool :=
  match products db !! SaleItem.product item with
  | Some p => Product.track_stock p
  | None => false
  end.

(** Modelled from the spec: the stock check of [complete] for one item,
    [currentStock(product, warehouse) >= quantity] when the product tracks
    stock; it is missing from the sources. *)
Definition stock_check (db : DB) (x : Sale.t) (item : SaleItem.t) : bool :=
  negb (tracks_stock db item)
  || bool_decide (SaleItem.quantity item
                  ≤ currentStock db (SaleItem.product item)
                      (Sale.warehouse x)).

(** Modelled from the spec: the SALE movement [complete] appends for a
    stock-tracked item, with the quantity negated; it is missing from the
    sources. *)
Definition sale_movement (x : Sale.t) (user : UUID) (now : Z)
    (id_item : UUID * SaleItem.t) : StockMovement.t :=
  {| StockMovement.id := id_item.1;
     StockMovement.product := SaleItem.product id_item.2;
     StockMovement.warehouse := Sale.warehouse x;
     StockMovement.movement_type := "SALE";
     StockMovement.quantity := - SaleItem.quantity id_item.2;
     StockMovement.reference_type := "SALE";
     StockMovement.reference_id := Some (Sale.id x);
     StockMovement.created_by := user;
     StockMovement.created_at := now |}.

(** Modelled from the spec: the items of a sale whose product tracks
    stock, and the movements [complete] appends for them, one each, with
    identifiers drawn from [uuid4]; they are missing from the sources. *)
Definition tracked_items (db : DB) (x : Sale.t) : list SaleItem.t :=
  List.filter (tracks_stock db) (items_all db x).

Definition movement_ids (uuid4 : nat → UUID) (db : DB) (x : Sale.t)
  : list UUID :=
  uuid4 <$> seq 0 (length (tracked_items db x)).

Definition sale_movements (uuid4 : nat → UUID) (now : Z) (user : UUID)
    (db : DB) (x : Sale.t) : list StockMovement.t :=
  sale_movement x user now
    <$> zip (movement_ids uuid4 db x) (tracked_items db x).

(** Modelled from the spec: the ledger entry [complete] appends, crediting
    the revenue account with the grand total; it is missing from the
    sources. *)
Definition sale_entry (x : Sale.t) (revenue id : UUID) (now : Z)
  : LedgerEntry.t :=
  {| LedgerEntry.id := id;
     LedgerEntry.account := revenue;
     LedgerEntry.amount := Sale.grand_total x;
     LedgerEntry.reference_type := "SALE";
     LedgerEntry.reference_id := Sale.id x;
     LedgerEntry.created_at := now |}.

(** Modelled from the spec: the snapshot an audit record keeps of a sale,
    its items and the generated event ids; the sources write no audit
    record. *)
Definition snapshot (x : Sale.t) (items : list SaleItem.t)
    (event_ids : list UUID) : JSON :=
  JObject
    [("id", JNumber (Z.of_N (Sale.id x)));
     ("status", JString (Sale.status x));
     ("grand_total", JNumber (Sale.grand_total x));
     ("items",
      JArray ((λ i, JObject
                      [("id", JNumber (Z.of_N (SaleItem.id i)));
                       ("product", JNumber (Z.of_N (SaleItem.product i)));
                       ("quantity", JNumber (SaleItem.quantity i));
                       ("unit_price", JNumber (SaleItem.unit_price i))])
              <$> items));
     ("events", JArray ((λ e, JNumber (Z.of_N e)) <$> event_ids))].

(** Modelled from the spec: [complete(sale)], which the sources do not
    contain.  Preconditions first (status PENDING, at least one item, the
    stock check of every stock-tracked item), then the writes as one unit:
    a SALE movement per stock-tracked item, one ledger entry, the status
    COMPLETED, one audit record.  A rejected call returns the database it
    was given.  [uuid4] supplies the new identifiers.  The spec names no
    error for an unknown sale or a sale with no item; [ValidationError] is
    used for both. *)
Definition complete (uuid4 : nat → UUID) (now : Z) (user revenue : UUID)
    (sale : UUID) (db : DB) : DB * Outcome :=
  match sales db !! sale with
  | None => (db, Rejected ValidationError)
  | Some x =>
      if decide (Sale.status x ≠ "PENDING")
      then (db, Rejected InvalidStateError)
      else
        let items := items_all db x in
        if decide (items = []) then (db, Rejected ValidationError)
        else if negb (forallb (stock_check db x) items)
        then (db, Rejected InsufficientStockError)
        else
          let tracked := tracked_items db x in
          let ids := movement_ids uuid4 db x in
          let movements := sale_movements uuid4 now user db x in
          let entry := sale_entry x revenue (uuid4 (length tracked)) now in
          let completed := Sale.set_status "COMPLETED" x in
          let event_ids := ids ++ [LedgerEntry.id entry] in
          let log :=
            {| AuditLog.id := uuid4 (S (length tracked));
               AuditLog.user := user;
               AuditLog.action := "UPDATE";
               AuditLog.entity_type := "Sale";
               AuditLog.entity_id := Sale.id x;
               AuditLog.before_state := Some (snapshot x items []);
               AuditLog.after_state :=
                 Some (snapshot completed items event_ids);
               AuditLog.created_at := now |} in
          (set_audit_logs (audit_logs db ++ [log])
             (set_sales (<[sale := completed]> (sales db))
                (set_ledger_entries (ledger_entries db ++ [entry])
                   (set_stock_movements (stock_movements db ++ movements) db))),
           Completed event_ids)
  end.

End Workflow.

(** ** Concrete data *)

Module Examples.

Definition cable : Product.t :=
  {| Product.id := 1%N; Product.sku := "HDMI-2M"; Product.name := "HDMI cable";
     Product.category := 9%N; Product.unit_cost := 30000;
     Product.unit_price := 45000; Product.track_stock := true;
     Product.is_active := true; Product.created_at := 100 |}.

Definition main_store : Warehouse.t :=
  {| Warehouse.id := 2%N; Warehouse.name := "Main"; Warehouse.location := "Nairobi";
     Warehouse.is_active := true |}.

Definition cable_key : InventoryViews.Key :=
  (1%N, "HDMI-2M", "HDMI cable", 2%N, "Main").

(** Ten units received. *)
Definition received : StockMovement.t :=
  {| StockMovement.id := 11%N; StockMovement.product := 1%N;
     StockMovement.warehouse := 2%N; StockMovement.movement_type := "IN";
     StockMovement.quantity := 10000; StockMovement.reference_type := "PURCHASE";
     StockMovement.reference_id := Some 70%N; StockMovement.created_by := 5%N;
     StockMovement.created_at := 200 |}.

(** Four units sold, recorded with no reference id. *)
Definition sold : StockMovement.t :=
  {| StockMovement.id := 12%N; StockMovement.product := 1%N;
     StockMovement.warehouse := 2%N; StockMovement.movement_type := "SALE";
     StockMovement.quantity := -4000; StockMovement.reference_type := "SALE";
     StockMovement.reference_id := None; StockMovement.created_by := 5%N;
     StockMovement.created_at := 300 |}.

(** The user table: one member of staff, by user name. *)
Definition staff : gmap UUID string := {[ 5%N := "amina" ]}.

(** Product and warehouse exist; nothing has moved yet. *)
Definition no_movements : DB :=
  set_warehouses {[ 2%N := main_store ]}
    (set_products {[ 1%N := cable ]} empty_db).

Definition two_movements : DB :=
  set_stock_movements [received; sold] no_movements.

Definition get_stock : Request :=
  {| method := "get"; query_params := ∅; data := []; user := 5%N |}.

(** A sale of one line worth 1000.00 whose stored subtotal is the
    largest value the column holds. *)
Definition big_sale : Sale.t :=
  {| Sale.id := 30%N; Sale.sale_number := "SALE-2026-001";
     Sale.warehouse := 2%N; Sale.sold_by := 5%N; Sale.status := "PENDING";
     Sale.subtotal := 99999; Sale.tax_total := 0; Sale.discount_total := 0;
     Sale.grand_total := 100000; Sale.created_at := 400 |}.

Definition big_line : SaleItem.t :=
  {| SaleItem.id := 31%N; SaleItem.sale := 30%N; SaleItem.product := 1%N;
     SaleItem.quantity := 1000; SaleItem.unit_price := 1000000;
     SaleItem.line_total := 100000 |}.

Definition one_big_sale : DB :=
  set_sale_items {[ 31%N := big_line ]}
    (set_sales {[ 30%N := big_sale ]} no_movements).

Definition revenue : Account.t :=
  {| Account.id := 40%N; Account.name := "Revenue";
     Account.account_type := "INCOME"; Account.is_active := true |}.

(** A completed sale of four cables at the price of the day. *)
Definition completed_sale : Sale.t :=
  {| Sale.id := 50%N; Sale.sale_number := "SALE-2026-002";
     Sale.warehouse := 2%N; Sale.sold_by := 5%N; Sale.status := "COMPLETED";
     Sale.subtotal := 1800; Sale.tax_total := 0; Sale.discount_total := 0;
     Sale.grand_total := 1800; Sale.created_at := 500 |}.

Definition four_cables : SaleItem.t :=
  {| SaleItem.id := 51%N; SaleItem.sale := 50%N; SaleItem.product := 1%N;
     SaleItem.quantity := 4000; SaleItem.unit_price := 450000;
     SaleItem.line_total := 1800 |}.

Definition after_sale : DB :=
  set_sale_items {[ 51%N := four_cables ]}
    (set_sales {[ 50%N := completed_sale ]} two_movements).

(** A serializer that accepts nothing. *)
Definition no_serializer (db : DB) (data : list (string * FieldValue))
  : result StockMovement.t :=
  Raise (ValidationError "This field is required.").

(** The catalogue price is raised, then the admin forms are posted with
    another price for the sold line, and its deletion is asked for. *)
Definition price_changes : list Interface.Op :=
  [Interface.ProductAdmin_change 1%N (Product.set_unit_price 99900 cable);
   Interface.SaleItemAdmin_change 51%N [("unit_price", VDecimal 1)];
   Interface.SaleItemInline_change 51%N [("unit_price", VDecimal 2)];
   Interface.SaleItemAdmin_delete 51%N].

(** A pending sale of four cables, which the stock of six covers, and a
    pending sale of four and then fifteen, which it does not. *)
Definition pending_sale : Sale.t :=
  {| Sale.id := 60%N; Sale.sale_number := "SALE-2026-003";
     Sale.warehouse := 2%N; Sale.sold_by := 5%N; Sale.status := "PENDING";
     Sale.subtotal := 1800; Sale.tax_total := 0; Sale.discount_total := 0;
     Sale.grand_total := 1800; Sale.created_at := 600 |}.

Definition four_more : SaleItem.t :=
  {| SaleItem.id := 61%N; SaleItem.sale := 60%N; SaleItem.product := 1%N;
     SaleItem.quantity := 4000; SaleItem.unit_price := 450000;
     SaleItem.line_total := 1800 |}.

Definition short_sale : Sale.t :=
  {| Sale.id := 80%N; Sale.sale_number := "SALE-2026-004";
     Sale.warehouse := 2%N; Sale.sold_by := 5%N; Sale.status := "PENDING";
     Sale.subtotal := 8550; Sale.tax_total := 0; Sale.discount_total := 0;
     Sale.grand_total := 8550; Sale.created_at := 700 |}.

Definition four_first : SaleItem.t :=
  {| SaleItem.id := 81%N; SaleItem.sale := 80%N; SaleItem.product := 1%N;
     SaleItem.quantity := 4000; SaleItem.unit_price := 450000;
     SaleItem.line_total := 1800 |}.

Definition fifteen_next : SaleItem.t :=
  {| SaleItem.id := 82%N; SaleItem.sale := 80%N; SaleItem.product := 1%N;
     SaleItem.quantity := 15000; SaleItem.unit_price := 450000;
     SaleItem.line_total := 6750 |}.

Definition two_pending : DB :=
  set_sale_items
    {[ 61%N := four_more; 81%N := four_first; 82%N := fifteen_next ]}
    (set_sales {[ 60%N := pending_sale; 80%N := short_sale ]}
       (set_accounts {[ 40%N := revenue ]} two_movements)).

Definition uuid4 (n : nat) : UUID := (1000 + N.of_nat n)%N.

(** The database after the first sale is completed. *)
Definition first_completed : DB :=
  (Workflow.complete uuid4 800 5%N 40%N 60%N two_pending).1.

End Examples.

(** ** sales/models.py: payments *)

Module Payment.
Record t : Type := {
  id : UUID;
  sale : UUID;
  payment_method : string;
  amount : Z;
  reference_code : string;
  received_by : UUID;
  created_at : Z;
}.

Definition sale_on_delete : OnDelete := PROTECT.
Definition received_by_on_delete : OnDelete := PROTECT.

Definition field_names : list string :=
  ["id"; "sale"; "payment_method"; "amount"; "reference_code";
   "received_by"; "created_at"].

Definition setattr (x : t) (field : string) (v : FieldValue) : t :=
  let mk i s pm a rc rb ca :=
    {| id := i; sale := s; payment_method := pm; amount := a;
       reference_code := rc; received_by := rb; created_at := ca |} in
  let '{| id := i; sale := s; payment_method := pm; amount := a;
          reference_code := rc; received_by := rb; created_at := ca |} := x in
  match v with
  | VUUID u =>
      if decide (field = "id") then mk u s pm a rc rb ca
      else if decide (field = "sale") then mk i u pm a rc rb ca
      else if decide (field = "received_by") then mk i s pm a rc u ca
      else x
  | VStr str =>
      if decide (field = "payment_method") then mk i s str a rc rb ca
      else if decide (field = "reference_code") then mk i s pm a str rb ca
      else x
  | VDecimal z =>
      if decide (field = "amount") then mk i s pm z rc rb ca else x
  | VDateTime z =>
      if decide (field = "created_at") then mk i s pm a rc rb z else x
  | VNull => x
  end.
End Payment.

(** ** sales/serializers.py: the totals of [SaleSerializer] *)

Module SaleTotals.

(** [obj.payments.all()], the reverse of [Payments.sale]. *)
Definition payments_all (payments : list Payment.t) (obj : Sale.t)
  : list Payment.t :=
  filter (λ p, Payment.sale p = Sale.id obj) payments.

(** [SaleSerializer.get_total_paid]. *)
Definition get_total_paid (payments : list Payment.t) (obj : Sale.t) : Z :=
  builtin_sum (Payment.amount <$> payments_all payments obj).

(** [SaleSerializer.get_balance_due]. *)
Definition get_balance_due (payments : list Payment.t) (obj : Sale.t) : Z :=
  let total_paid := get_total_paid payments obj in
  Sale.grand_total obj - total_paid.

End SaleTotals.

(** ** sales/admin.py: payments *)

Module PaymentsAdmin.

Definition PaymentInline_readonly_fields : list string :=
  ["id"; "payment_method"; "amount"; "reference_code"; "received_by";
   "created_at"].
Definition PaymentInline_has_delete_permission (obj : option Sale.t) : bool :=
  false.

Definition PaymentAdmin_readonly_fields : list string :=
  ["id"; "sale"; "payment_method"; "amount"; "reference_code";
   "received_by"; "created_at"].
Definition PaymentAdmin_has_add_permission : bool := false.
Definition PaymentAdmin_has_delete_permission (obj : option Payment.t) : bool :=
  false.

(** What the two admin classes let a user ask for. *)
Inductive Op : Type :=
| PaymentAdmin_add (p : Payment.t)
| PaymentAdmin_change (pk : UUID) (form : list (string * FieldValue))
| PaymentAdmin_delete (pk : UUID)
| PaymentInline_change (pk : UUID) (form : list (string * FieldValue))
| PaymentInline_delete (sale : option Sale.t) (pk : UUID).

Definition step (op : Op) (payments : list Payment.t)
  : result (list Payment.t) :=
  match op with
  | PaymentAdmin_add p => add_view PaymentAdmin_has_add_permission p payments
  | PaymentAdmin_change pk form =>
      Ok (change_view PaymentAdmin_readonly_fields Payment.setattr
            Payment.id pk form payments)
  | PaymentAdmin_delete pk =>
      delete_view
        (PaymentAdmin_has_delete_permission (list_get Payment.id pk payments))
        Payment.id pk payments
  | PaymentInline_change pk form =>
      (* the foreign key to the parent sale is not a field of the inline's
         form *)
      Ok (change_view ("sale" :: PaymentInline_readonly_fields)
            Payment.setattr Payment.id pk form payments)
  | PaymentInline_delete sale pk =>
      delete_view (PaymentInline_has_delete_permission sale)
        Payment.id pk payments
  end.

Definition run (ops : list Op) (payments : list Payment.t) : list Payment.t :=
  foldl (λ table op, match step op table with
                     | Ok table' => table'
                     | Raise _ => table
                     end) payments ops.

End PaymentsAdmin.

(** ** audit/admin.py *)

Module AuditAdmin.

Definition AuditLogAdmin_readonly_fields : list string :=
  ["id"; "user"; "action"; "entity_type"; "entity_id"; "before_state";
   "after_state"; "created_at"].
Definition AuditLogAdmin_has_add_permission : bool := false.
Definition AuditLogAdmin_has_delete_permission (obj : option AuditLog.t)
  : bool := false.
Definition AuditLogAdmin_has_change_permission (obj : option AuditLog.t)
  : bool := false.

(** What the admin class lets a user ask for; [edit] stands for any form
    posted to the change view. *)
Inductive Op : Type :=
| AuditLogAdmin_add (log : AuditLog.t)
| AuditLogAdmin_change (pk : UUID) (edit : AuditLog.t → AuditLog.t)
| AuditLogAdmin_delete (pk : UUID).

Definition step (op : Op) (logs : list AuditLog.t) : result (list AuditLog.t) :=
  match op with
  | AuditLogAdmin_add log => add_view AuditLogAdmin_has_add_permission log logs
  | AuditLogAdmin_change pk edit =>
      if AuditLogAdmin_has_change_permission (list_get AuditLog.id pk logs)
      then Ok (list_change AuditLog.id pk edit logs)
      else Raise PermissionDenied
  | AuditLogAdmin_delete pk =>
      delete_view
        (AuditLogAdmin_has_delete_permission (list_get AuditLog.id pk logs))
        AuditLog.id pk logs
  end.

Definition run (ops : list Op) (logs : list AuditLog.t) : list AuditLog.t :=
  foldl (λ table op, match step op table with
                     | Ok table' => table'
                     | Raise _ => table
                     end) logs ops.

End AuditAdmin.

(** ** inventory/views.py: the category and warehouse listings *)

Module CatalogueViews.

(** [str.lower] on the letters A to Z; no other character lower-cases to
    a letter of the word compared with below. *)
Definition lower_ascii (a : Ascii.ascii) : Ascii.ascii :=
  let n := Ascii.N_of_ascii a in
  if (65 <=? n)%N && (n <=? 90)%N then Ascii.ascii_of_N (n + 32) else a.

Fixpoint lower (s : string) : string :=
  match s with
  | EmptyString => EmptyString
  | String a s' => String (lower_ascii a) (lower s')
  end.

(** [CategoryViewSet.get_queryset]. *)
Definition CategoryViewSet_get_queryset (request : Request) (db : DB)
  : result (gmap UUID Category.t) :=
  let queryset := categories db in
  is_active ← query_param request "is_active";
  match is_active with
  | Some v =>
      Ok (filter (λ kv, Category.is_active kv.2
                        = bool_decide (lower v = "true")) queryset)
  | None => Ok queryset
  end.

(** [WarehouseViewSet.get_queryset]. *)
Definition WarehouseViewSet_get_queryset (request : Request) (db : DB)
  : result (gmap UUID Warehouse.t) :=
  let queryset := warehouses db in
  is_active ← (q ← Request_getattr request "query";
               f ← getattr q "params_get";
               call f "is_active");
  match is_active with
  | Some v =>
      Ok (filter (λ kv, Warehouse.is_active kv.2
                        = bool_decide (lower v = "true")) queryset)
  | None => Ok queryset
  end.

End CatalogueViews.

(** ** Further concrete data *)

Module Cases.

(** A manual correction of two units and a half, as posted. *)
Definition correction : StockMovement.t :=
  {| StockMovement.id := 0%N; StockMovement.product := 1%N;
     StockMovement.warehouse := 2%N; StockMovement.movement_type := "ADJUSTMENT";
     StockMovement.quantity := -2500; StockMovement.reference_type := "MANUAL";
     StockMovement.reference_id := None; StockMovement.created_by := 77%N;
     StockMovement.created_at := 0 |}.

(** A serializer that yields the posted correction. *)
Definition correction_serializer (db : DB) (data : list (string * FieldValue))
  : result StockMovement.t :=
  Ok correction.

Definition post_correction : Request :=
  {| method := "post"; query_params := ∅; data := []; user := 5%N |}.

Definition delete_movement : Request :=
  {| method := "delete"; query_params := ∅; data := []; user := 5%N |}.

(** The product of the stored movements is asked to be deleted, then
    renamed, then a warehouse is added. *)
Definition catalogue_changes : list Interface.Op :=
  [Interface.ProductAdmin_delete 1%N;
   Interface.ProductAdmin_change 1%N (Product.set_unit_price 99900 Examples.cable);
   Interface.WarehouseAdmin_delete 2%N;
   Interface.stock_movements_request 99%N 900 ListRoute post_correction].

Definition cash : Account.t :=
  {| Account.id := 41%N; Account.name := "Cash";
     Account.account_type := "ASSET"; Account.is_active := true |}.

Definition entry (id account : UUID) (amount : Z) : LedgerEntry.t :=
  {| LedgerEntry.id := id; LedgerEntry.account := account;
     LedgerEntry.amount := amount; LedgerEntry.reference_type := "SALE";
     LedgerEntry.reference_id := 50%N; LedgerEntry.created_at := 500 |}.

(** A sale of 18.00 booked on revenue and cash, and its refund on
    revenue. *)
Definition three_entries : DB :=
  set_ledger_entries
    [entry 91%N 40%N 1800; entry 92%N 41%N 1800; entry 93%N 40%N (-1800)]
    (set_accounts {[ 40%N := Examples.revenue; 41%N := cash ]} empty_db).

End Cases.

(** ** Reference definitions for the further properties *)

(** Every stored event points at rows that exist: a movement at its
    product and warehouse, a ledger entry at its account. *)
Definition events_refer (db : DB) : Prop :=
  Forall (λ m, is_Some (products db !! StockMovement.product m)
               ∧ is_Some (warehouses db !! StockMovement.warehouse m))
         (stock_movements db)
  ∧ Forall (λ e, is_Some (accounts db !! LedgerEntry.account e))
           (ledger_entries db).

(** * Properties *)



(** ** Exact sums *)

Lemma exact_decimal_sum_app (xs ys : list Z) :
  exact_decimal_sum (xs ++ ys) = exact_decimal_sum xs + exact_decimal_sum ys.
Proof.
  induction xs as [|x xs IH]; simpl; [done|]. rewrite IH. lia.
Qed.

Lemma exact_decimal_sum_perm (xs ys : list Z) :
  xs ≡ₚ ys → exact_decimal_sum xs = exact_decimal_sum ys.
Proof.
  induction 1; simpl; lia.
Qed.

Lemma foldl_add_exact (xs : list Z) (acc : Z) :
  foldl Z.add acc xs = acc + exact_decimal_sum xs.
Proof.
  revert acc. induction xs as [|x xs IH]; intros acc; simpl; [lia|].
  rewrite IH. lia.
Qed.

(** ** The stock aggregation *)

Lemma group_of_cons (k k' : Key) (v : Z * Z) (rs : list (Key * (Z * Z))) :
  group_of k ((k', v) :: rs) =
    if decide (k' = k) then v :: group_of k rs else group_of k rs.
Proof.
  unfold group_of. rewrite filter_cons. simpl. by destruct (decide (k' = k)).
Qed.

Lemma foldl_group_lookup (rs : list (Key * (Z * Z)))
    (acc : gmap Key (list Z * Z)) (k : Key) :
  foldl group_step acc rs !! k =
    match acc !! k, group_of k rs with
    | o, [] => o
    | None, v :: vs => Some (foldl merge_group ([v.1], v.2) vs)
    | Some a, vs => Some (foldl merge_group a vs)
    end.
Proof.
  revert acc. induction rs as [|[k' v] rs IH]; intros acc.
  - simpl. by destruct (acc !! k).
  - cbn [foldl]. rewrite IH, group_of_cons. unfold group_step.
    cbn [fst snd]. destruct (decide (k' = k)) as [->|Hne].
    + rewrite lookup_partial_alter_eq.
      destruct (acc !! k) as [a|]; by destruct (group_of k rs).
    + rewrite lookup_partial_alter_ne by done.
      by destruct (acc !! k).
Qed.

Lemma foldl_merge_group (a : list Z * Z) (vs : list (Z * Z)) :
  foldl merge_group a vs = (a.1 ++ vs.*1, foldl Z.max a.2 vs.*2).
Proof.
  revert a. induction vs as [|v vs IH]; intros [qs t].
  - cbn. by rewrite app_nil_r.
  - cbn [foldl]. rewrite IH. unfold merge_group. rewrite !fmap_cons.
    cbn [foldl fst snd]. by rewrite <- app_assoc.
Qed.

Lemma group_by_lookup (rs : list (Key * (Z * Z))) (k : Key) :
  group_by rs !! k =
    match group_of k rs with
    | [] => None
    | v :: vs => Some ((v :: vs).*1, foldl Z.max v.2 vs.*2)
    end.
Proof.
  unfold group_by. rewrite foldl_group_lookup, lookup_empty.
  destruct (group_of k rs) as [|v vs]; [done|].
  rewrite foldl_merge_group. by rewrite fmap_cons.
Qed.

(** The sum of a group is the engine's sum of the quantities of its rows. *)
Lemma annotate_lookup (e : Engine) (rs : list (Key * (Z * Z))) (k : Key) :
  annotate e rs !! k =
    match group_of k rs with
    | [] => None
    | v :: vs => Some (SUM e (v :: vs).*1, foldl Z.max v.2 vs.*2)
    end.
Proof.
  unfold annotate. rewrite lookup_fmap, group_by_lookup.
  by destruct (group_of k rs).
Qed.

Lemma group_of_rows (db : DB) (pf wf : option UUID) (k : Key) :
  group_of k (rows db pf wf) =
    (λ m, (StockMovement.quantity m, StockMovement.created_at m))
      <$> movements_of db pf wf k.
Proof.
  unfold rows, movements_of.
  induction (filter (selected pf wf) (stock_movements db)) as [|m ms IH];
    [done|].
  rewrite filter_cons. cbn [omap list_omap].
  destruct (values db m) as [k'|] eqn:Hv; cbn [mbind option_bind].
  - rewrite group_of_cons, IH.
    destruct (decide (k' = k)) as [->|Hne].
    + by rewrite decide_True.
    + rewrite decide_False; [done|congruence].
  - rewrite IH. by rewrite decide_False.
Qed.

Lemma values_key_of (db : DB) (p w : UUID) (k : Key) (m : StockMovement.t) :
  key_of db p w = Some k →
  values db m = Some k ↔
    StockMovement.product m = p ∧ StockMovement.warehouse m = w.
Proof.
  unfold key_of, values. intros Hk.
  destruct (products db !! p) as [P|] eqn:HP; [|done].
  destruct (warehouses db !! w) as [W|] eqn:HW; [|done].
  simpl in Hk. injection Hk as <-. split.
  - destruct (products db !! StockMovement.product m); [|done].
    destruct (warehouses db !! StockMovement.warehouse m); [|done].
    simpl. intros [= -> _ _ -> _]. done.
  - intros [-> ->]. rewrite HP, HW. done.
Qed.

Lemma movements_of_pair (db : DB) (pf wf : option UUID) (p w : UUID) (k : Key) :
  key_of db p w = Some k →
  movements_of db pf wf k = pair_movements db pf wf p w.
Proof.
  intros Hk. unfold movements_of, pair_movements.
  apply list_filter_iff. intros m. by apply values_key_of.
Qed.

Lemma annotated_lookup (db : DB) (pf wf : option UUID) (p w : UUID) (k : Key) :
  key_of db p w = Some k →
  annotated db pf wf !! k =
    match pair_movements db pf wf p w with
    | [] => None
    | m :: ms =>
        Some (SUM (engine db) (StockMovement.quantity <$> m :: ms),
              foldl Z.max (StockMovement.created_at m)
                          (StockMovement.created_at <$> ms))
    end.
Proof.
  intros Hk. unfold annotated.
  rewrite annotate_lookup, group_of_rows, (movements_of_pair _ _ _ p w) by done.
  destruct (pair_movements db pf wf p w) as [|m ms]; [done|].
  rewrite !fmap_cons. cbn [fst snd]. rewrite <- !list_fmap_compose. done.
Qed.

Lemma foldl_max_perm (xs ys : list Z) (a : Z) :
  xs ≡ₚ ys → foldl Z.max a xs = foldl Z.max a ys.
Proof.
  intros H. revert a. induction H; intros a; simpl; try congruence.
  f_equal. lia.
Qed.



(** The query keeps the groups whose sum is positive, and only those. *)
Lemma stock_levels_lookup (db : DB) (pf wf : option UUID) (k : Key)
    (g : Decimal * Z) :
  stock_levels db pf wf !! k = Some g ↔
    annotated db pf wf !! k = Some g ∧ 0 < coefficient g.1.
Proof.
  unfold stock_levels. by rewrite map_lookup_filter_Some.
Qed.

Lemma stock_levels_positive_pairs (db : DB) (pf wf : option UUID) (p w : UUID)
    (k : Key) :
  adds_exactly (engine db) →
  key_of db p w = Some k →
  is_Some (stock_levels db pf wf !! k) ↔
    0 < exact_decimal_sum
          (StockMovement.quantity <$> pair_movements db pf wf p w).
Proof.
  intros He Hk. split.
  - intros [g Hg]. apply stock_levels_lookup in Hg as [Hg Hpos].
    rewrite (annotated_lookup _ _ _ p w) in Hg by done.
    destruct (pair_movements db pf wf p w) as [|m ms]; [done|].
    injection Hg as <-. by rewrite He in Hpos.
  - intros Hpos.
    destruct (pair_movements db pf wf p w) as [|m ms] eqn:Hms;
      [simpl in Hpos; lia|].
    eexists. apply stock_levels_lookup. split.
    + rewrite (annotated_lookup _ _ _ p w), Hms by done. done.
    + by rewrite He.
Qed.




Lemma filter_all {A} (P : A → Prop) `{∀ x, Decision (P x)} (l : list A) :
  (∀ x, P x) → filter P l = l.
Proof.
  intros HP. induction l as [|x l IH]; [done|].
  by rewrite filter_cons_True, IH.
Qed.

Lemma get_queryset_unfiltered (request : Request) (db : DB) :
  query_params request = ∅ →
  ∃ ms, get_queryset request db = Ok ms ∧ ms ≡ₚ stock_movements db.
Proof.
  intros Hq. unfold get_queryset, query_param, Request_getattr.
  rewrite decide_True by done. cbn [mbind result_bind getattr].
  rewrite decide_True by done. cbn [mbind result_bind call].
  rewrite Hq, !lookup_empty. cbn [uuid_param truthy mbind result_bind].
  eexists. split; [done|].
  rewrite !filter_all by (intros; repeat split; done).
  apply merge_sort_Permutation.
Qed.

(** X1: the stock query of [StockViewSet.list], taken by itself, on an
    engine that adds the quantity column exactly: a pair is in its result
    exactly when the signed quantities of its selected movements sum to more
    than zero, the quantity shown is that sum, and the movements of every
    pair, listed or not, are still returned by the movement endpoint's
    queryset. *)
Theorem stock_query_lists_positive_pairs (request : Request) (db : DB)
    (pf wf : option UUID) (p w : UUID) (k : Key) :
  adds_exactly (engine db) →
  key_of db p w = Some k →
  query_params request = ∅ →
  (is_Some (stock_levels db pf wf !! k) ↔
     0 < exact_decimal_sum
           (StockMovement.quantity <$> pair_movements db pf wf p w))
  ∧ (∀ q, current_quantity (stock_levels db pf wf) k = Some q →
          q = thousandths
                (exact_decimal_sum
                   (StockMovement.quantity <$> pair_movements db pf wf p w)))
  ∧ ∃ ms, get_queryset request db = Ok ms ∧ ms ≡ₚ stock_movements db.
Proof.
  intros He Hk Hq. split; [by apply stock_levels_positive_pairs|].
  split; [|by apply get_queryset_unfiltered].
  intros q. unfold current_quantity.
  destruct (stock_levels db pf wf !! k) as [g|] eqn:Hg; [|done].
  apply stock_levels_lookup in Hg as [Hg _].
  rewrite (annotated_lookup _ _ _ p w) in Hg by done.
  destruct (pair_movements db pf wf p w); [done|].
  injection Hg as <-. intros [= <-]. apply He.
Qed.

Lemma stock_query_lists_positive_pairs_witness :
  (adds_exactly (engine Examples.two_movements)
   ∧ key_of Examples.two_movements 1%N 2%N = Some Examples.cable_key
   ∧ query_params Examples.get_stock = ∅)
  ∧ stock_levels Examples.two_movements None None !! Examples.cable_key
    = Some (thousandths 6000, 300)
  ∧ stock_levels (set_stock_movements [Examples.sold] Examples.two_movements)
      None None !! Examples.cable_key = None
  ∧ ∃ ms, get_queryset Examples.get_stock Examples.two_movements = Ok ms
          ∧ ms ≡ₚ stock_movements Examples.two_movements.
Proof.
  assert (H0 : adds_exactly (engine Examples.two_movements))
    by (intros values; reflexivity).
  assert (H1 : key_of Examples.two_movements 1%N 2%N = Some Examples.cable_key)
    by (vm_compute; reflexivity).
  assert (H2 : query_params Examples.get_stock = ∅) by reflexivity.
  split; [split; [exact H0 | split; [exact H1 | exact H2]]|].
  split; [vm_compute; reflexivity|].
  split; [vm_compute; reflexivity|].
  exact (proj2 (proj2 (stock_query_lists_positive_pairs Examples.get_stock
                         Examples.two_movements None None 1%N 2%N
                         Examples.cable_key H0 H1 H2))).
Defined.

(** C6: [StockViewSet.list] reads [request.query], an attribute the request
    does not have, so every call raises before the stock query runs and
    nothing is listed; the movement endpoint reads the same parameter
    through [request.query_params] and gets it. *)
Theorem StockViewSet_list_raises (request : Request) (db : DB) :
  StockViewSet_list request db = Raise (AttributeError "query")
  ∧ Request_getattr request "query" = Raise (AttributeError "query")
  ∧ query_param request "product_id"
    = Ok (query_params request !! "product_id").
Proof. repeat split. Qed.

(** The import at the head of inventory/views.py names a class that
    inventory/serializers.py does not bind. *)
Lemma views_import_raises :
  module_import = Raise (ImportError "StockMovementCreateSerializer").
Proof. reflexivity. Qed.

(** ** Account balances *)

Import FinanceSerializers.

Lemma get_balance_exact (db : DB) (obj : Account.t) :
  get_balance db obj =
    exact_decimal_sum (LedgerEntry.amount <$> ledger_entries_all db obj).
Proof.
  unfold get_balance, builtin_sum. rewrite foldl_add_exact. lia.
Qed.

(** C3: the balance [get_balance] computes for an account is the exact sum
    of the signed amounts of the ledger entries that reference the account,
    zero when there is none; an entry added to the ledger changes the
    balance of its own account by its amount and no other balance. *)
Theorem account_balance_is_exact_sum (db : DB) (obj : Account.t)
    (e : LedgerEntry.t) :
  get_balance db obj =
    match filter (λ x, LedgerEntry.account x = Account.id obj)
                 (ledger_entries db) with
    | [] => 0
    | es => exact_decimal_sum (LedgerEntry.amount <$> es)
    end
  ∧ get_balance (set_ledger_entries (ledger_entries db ++ [e]) db) obj =
      get_balance db obj
      + (if decide (LedgerEntry.account e = Account.id obj)
         then LedgerEntry.amount e else 0).
Proof.
  split.
  - rewrite get_balance_exact. unfold ledger_entries_all.
    by destruct (filter _ (ledger_entries db)).
  - rewrite !get_balance_exact. unfold ledger_entries_all. simpl.
    rewrite filter_app, fmap_app, exact_decimal_sum_app.
    rewrite filter_cons, filter_nil.
    destruct (decide (LedgerEntry.account e = Account.id obj)); simpl; lia.
Qed.

(** ** Sale totals *)

(** C10: the [subtotal] column holds five digits, two of them decimals, so
    at most 999.99, while the other three totals hold fifteen digits; a
    stored sale whose line totals sum to 1000.00 or more therefore has a
    subtotal different from the sum of its line totals. *)
Theorem subtotal_cannot_hold_one_thousand (db : DB) (x : Sale.t) :
  Sale.stored x = true →
  100000 ≤ recomputed_subtotal db x →
  max_value Sale.subtotal_field = 99999
  ∧ max_digits Sale.tax_total_field = 15%nat
  ∧ max_digits Sale.discount_total_field = 15%nat
  ∧ max_digits Sale.grand_total_field = 15%nat
  ∧ Sale.subtotal x ≠ recomputed_subtotal db x.
Proof.
  intros Hstored Hsum. repeat split.
  unfold Sale.stored in Hstored.
  repeat (apply andb_prop in Hstored as [Hstored _]).
  unfold representable in Hstored. apply bool_decide_eq_true in Hstored.
  change (10 ^ Z.of_nat (max_digits Sale.subtotal_field)) with 100000 in Hstored.
  lia.
Qed.

Lemma subtotal_cannot_hold_one_thousand_witness :
  (Sale.stored Examples.big_sale = true
   ∧ 100000 ≤ recomputed_subtotal Examples.one_big_sale Examples.big_sale)
  ∧ (max_value Sale.subtotal_field = 99999
     ∧ max_digits Sale.tax_total_field = 15%nat
     ∧ max_digits Sale.discount_total_field = 15%nat
     ∧ max_digits Sale.grand_total_field = 15%nat
     ∧ Sale.subtotal Examples.big_sale
         ≠ recomputed_subtotal Examples.one_big_sale Examples.big_sale).
Proof.
  assert (H1 : Sale.stored Examples.big_sale = true) by (vm_compute; reflexivity).
  assert (H2 : 100000 ≤ recomputed_subtotal Examples.one_big_sale Examples.big_sale)
    by (vm_compute; discriminate).
  split; [split; [exact H1 | exact H2]|].
  exact (subtotal_cannot_hold_one_thousand
           Examples.one_big_sale Examples.big_sale H1 H2).
Defined.

(** ** Validation of a new sale item *)

Import SalesSerializers.

(** C8: [validate_quantity] is bound inside [Meta], where the serializer
    does not look for it, so a quantity of zero or below passes the
    validation of [SaleItemCreateSerializer]; the same check written on
    [PaymentCreateSerializer] itself does reject. *)
Theorem nonpositive_quantity_passes_validation :
  validate_method SaleItemCreateSerializer "quantity" = None
  ∧ SaleItemCreateSerializer_is_valid Examples.no_movements
      [("product", VUUID 1%N); ("quantity", VDecimal 0)]
    = Ok [("product", VUUID 1%N); ("quantity", VDecimal 0)]
  ∧ SaleItemCreateSerializer_is_valid Examples.no_movements
      [("product", VUUID 1%N); ("quantity", VDecimal (-5000))]
    = Ok [("product", VUUID 1%N); ("quantity", VDecimal (-5000))]
  ∧ validate_quantity (VDecimal 0)
    = Raise (ValidationError "Qty must be greater than 0")
  ∧ PaymentCreateSerializer_is_valid (λ _, true)
      [("payment_method", VStr "CASH"); ("amount", VDecimal 0);
       ("received_by", VUUID 5%N)]
    = Raise (ValidationError "Amount must be greater than zero").
Proof.
  repeat split; vm_compute; reflexivity.
Qed.

(** ** Read-only admin forms *)

Lemma ModelAdmin_change_fixed {Obj Val} (readonly_fields : list string)
    (setattr : Obj → string → Val → Obj) (obj : Obj) (form : list (string * Val)) :
  (∀ o field v, field ∉ readonly_fields → setattr o field v = o) →
  ModelAdmin_change readonly_fields setattr obj form = obj.
Proof.
  intros Hro. unfold ModelAdmin_change.
  induction form as [|[field v] form IH]; [done|].
  cbn [foldl fst snd]. case_bool_decide; [done|]. by rewrite Hro.
Qed.

Lemma list_change_fixed {Obj} (pk_of : Obj → UUID) (pk : UUID) (f : Obj → Obj)
    (table : list Obj) :
  (∀ o, f o = o) → list_change pk_of pk f table = table.
Proof.
  intros Hf. unfold list_change. rewrite <- (list_fmap_id table) at 2.
  apply list_fmap_ext. intros _ o _. case_decide; [apply Hf|done].
Qed.

Ltac field_not_listed H :=
  exfalso; apply H; repeat (first [apply list_elem_of_here | apply list_elem_of_further]).

Lemma StockMovement_setattr_readonly (m : StockMovement.t) (field : string)
    (v : FieldValue) :
  field ∉ InventoryAdmin.StockMovementAdmin_readonly_fields →
  StockMovement.setattr m field v = m.
Proof.
  intros H. destruct m, v; unfold StockMovement.setattr;
    repeat case_decide; subst; try done; field_not_listed H.
Qed.

Lemma LedgerEntry_setattr_readonly (e : LedgerEntry.t) (field : string)
    (v : FieldValue) :
  field ∉ FinanceAdmin.LedgerEntryAdmin_readonly_fields →
  LedgerEntry.setattr e field v = e.
Proof.
  intros H. destruct e, v; unfold LedgerEntry.setattr;
    repeat case_decide; subst; try done; field_not_listed H.
Qed.

(** ** The event tables only grow *)

(** A row is saved exactly when its primary key is new and its product
    and warehouse are stored; it is then the last row of the table. *)
Lemma save_Ok (ps : gmap UUID Product.t) (ws : gmap UUID Warehouse.t)
    (table table' : list StockMovement.t) (m : StockMovement.t) :
  StockMovement.save ps ws table m = Ok table' ↔
    table' = table ++ [m]
    ∧ (StockMovement.id m ∉ StockMovement.id <$> table)
    ∧ is_Some (ps !! StockMovement.product m)
    ∧ is_Some (ws !! StockMovement.warehouse m).
Proof.
  unfold StockMovement.save, column_insert, primary_key_insert,
    ForeignKey_insert.
  cbn [StockMovement.reference_id_field null].
  destruct (StockMovement.reference_id m); cbn [mbind result_bind];
    repeat (case_bool_decide; cbn [mbind result_bind]);
    split; try done; try (by intros [= <-]); try (by intros (-> & ? & ? & ?)).
Qed.

Lemma save_appends (ps : gmap UUID Product.t) (ws : gmap UUID Warehouse.t)
    (table table' : list StockMovement.t) (m : StockMovement.t) :
  StockMovement.save ps ws table m = Ok table' → table' = table ++ [m].
Proof. intros H. by apply save_Ok in H as [-> _]. Qed.

Section AppendOnly.

Variable StockMovementCreateSerializer :
  DB → list (string * FieldValue) → result StockMovement.t.

Local Abbreviation step := (Interface.step StockMovementCreateSerializer).
Local Abbreviation run := (Interface.run StockMovementCreateSerializer).

Lemma events_kept_refl (db : DB) : events_kept db db.
Proof. by split. Qed.

Lemma events_kept_trans (a b c : DB) :
  events_kept a b → events_kept b c → events_kept a c.
Proof.
  intros [H1 H2] [H3 H4]. split; [by etrans|congruence].
Qed.

Lemma dispatch_get_post (route : Route) (request : Request) (a : Action) :
  dispatch http_method_names route request = Some a →
  a = list_action ∨ a = create_action ∨ ∃ pk, a = retrieve_action pk.
Proof.
  unfold dispatch, http_method_names. case_bool_decide as Hm; [|done].
  apply elem_of_cons in Hm as [->|Hm];
    [|apply elem_of_cons in Hm as [->|Hm]; [|by apply elem_of_nil in Hm]].
  - destruct route; simpl; intros [= <-]; eauto.
  - destruct route; simpl; [intros [= <-]; eauto|done].
Qed.

Lemma create_keeps (uuid4 : UUID) (now : Z) (request : Request) (db : DB)
    (r : DB * Response) :
  create StockMovementCreateSerializer uuid4 now request db = Ok r →
  events_kept db r.1.
Proof.
  unfold create.
  destruct (StockMovementCreateSerializer db (data request)) as [v|]; [|done].
  cbn [mbind result_bind]. case_decide.
  - intros [= <-]. apply events_kept_refl.
  - destruct (StockMovement.save _ _ _ _) as [table|] eqn:Hs;
      cbn [mbind result_bind]; [|done].
    apply save_appends in Hs as ->.
    destruct (InventorySerializers.StockMovementSerializer_data _);
      cbn [mbind result_bind]; [|done].
    intros [= <-]. split; simpl; [by apply prefix_app_r|done].
Qed.

Lemma StockMovementViewSet_keeps (uuid4 : UUID) (now : Z) (route : Route)
    (request : Request) (db : DB) (r : DB * Response) :
  StockMovementViewSet StockMovementCreateSerializer uuid4 now route request db
    = Ok r →
  events_kept db r.1.
Proof.
  unfold StockMovementViewSet.
  destruct (dispatch http_method_names route request) as [a|] eqn:Ha.
  - apply dispatch_get_post in Ha as [->|[->|[pk ->]]].
    + destruct (get_queryset request db); cbn [mbind result_bind]; [|done].
      intros [= <-]. apply events_kept_refl.
    + apply create_keeps.
    + destruct (get_queryset request db) as [ms|]; cbn [mbind result_bind];
        [|done].
      destruct (List.find _ ms); intros [= <-]; apply events_kept_refl.
  - intros [= <-]. apply events_kept_refl.
Qed.

Local Ltac kept := intros [= <-]; split; simpl; done.

Lemma step_keeps_events (op : Interface.Op) (db db' : DB) :
  step op db = Ok db' → events_kept db db'.
Proof.
  destruct op; cbn [Interface.step].
  - destruct (StockViewSet_list request db); [|done].
    kept.
  - destruct (StockMovementViewSet _ _ _ _ _ _) as [r|] eqn:Hr; [|done].
    intros [= <-]. by eapply StockMovementViewSet_keeps.
  - destruct (products db !! Product.id p); [done|].
    kept.
  - kept.
  - unfold Interface.delete_product, collect. cbn [StockMovement.product_on_delete].
    destruct (existsb _ (stock_movements db)); [done|]. cbn [mbind result_bind].
    destruct (collect_map _ _ _ _); [|done].
    kept.
  - kept.
  - unfold Interface.delete_warehouse, collect.
    cbn [StockMovement.warehouse_on_delete].
    destruct (existsb _ (stock_movements db)); [done|]. cbn [mbind result_bind].
    destruct (collect_map _ _ _ _); [|done].
    kept.
  - done.
  - intros [= <-]. split; [|done]. simpl. unfold change_view.
    rewrite list_change_fixed; [done|]. intros o.
    apply ModelAdmin_change_fixed. intros ???.
    apply StockMovement_setattr_readonly.
  - done.
  - kept.
  - unfold Interface.delete_account, collect.
    cbn [LedgerEntry.account_on_delete].
    destruct (existsb _ (ledger_entries db)); [done|].
    kept.
  - done.
  - intros [= <-]. split; [done|]. simpl. unfold change_view.
    rewrite list_change_fixed; [done|]. intros o.
    apply ModelAdmin_change_fixed. intros ???.
    apply LedgerEntry_setattr_readonly.
  - done.
  - destruct (sales db !! pk); [|kept].
    destruct (SalesAdmin.SaleItemInline_has_delete_permission _); [|done].
    kept.
  - unfold Interface.delete_sale.
    destruct (SalesAdmin.SaleAdmin_has_delete_permission _); [|done].
    destruct (collect_map _ _ _ _); [|done].
    kept.
  - destruct (_ ≫= _); [|kept].
    destruct (SalesAdmin.SaleItemInline_has_delete_permission _); [|done].
    kept.
  - destruct (sales db !! sale); [|kept].
    destruct (SalesAdmin.SaleItemInline_has_delete_permission _) as [[]|];
      [|done|done].
    kept.
  - done.
  - kept.
  - unfold Interface.delete_sale_item.
    destruct (SalesAdmin.SaleItemAdmin_has_delete_permission _ _) as [[]|];
      [|done|done].
    kept.
  - unfold Interface.delete_category.
    cbn [Category.parent_on_delete mbind result_bind].
    destruct (collect_map _ _ _ _); [|done]. kept.
  - unfold Interface.delete_user, collect.
    cbn [StockMovement.created_by_on_delete].
    destruct (existsb _ (stock_movements db)); [done|]. cbn [mbind result_bind].
    destruct (collect_map _ _ _ _); [|done]. kept.
Qed.

Lemma apply_keeps_events (db : DB) (op : Interface.Op) :
  events_kept db (Interface.apply StockMovementCreateSerializer db op).
Proof.
  unfold Interface.apply. destruct (step op db) eqn:H.
  - by eapply step_keeps_events.
  - apply events_kept_refl.
Qed.

Lemma run_keeps_events (ops : list Interface.Op) (db : DB) :
  events_kept db (run ops db).
Proof.
  revert db. induction ops as [|op ops IH]; intros db.
  - apply events_kept_refl.
  - cbn [Interface.run foldl]. eapply events_kept_trans;
      [apply apply_keeps_events | apply IH].
Qed.

End AppendOnly.

(** C7: no operation of the views and admin classes updates or deletes a
    stock movement or a ledger entry: after any sequence of operations every
    movement stored before is still stored, at the same place and with the
    same fields, and the ledger is unchanged; the movement endpoints never
    dispatch to update, partial update or destroy. *)
Theorem events_are_never_updated_or_deleted
    (StockMovementCreateSerializer :
       DB → list (string * FieldValue) → result StockMovement.t)
    (ops : list Interface.Op) (db : DB) :
  stock_movements db
    `prefix_of` stock_movements
                  (Interface.run StockMovementCreateSerializer ops db)
  ∧ (∀ i m, stock_movements db !! i = Some m →
            stock_movements
              (Interface.run StockMovementCreateSerializer ops db) !! i = Some m)
  ∧ ledger_entries (Interface.run StockMovementCreateSerializer ops db)
      = ledger_entries db
  ∧ (∀ route request pk,
       dispatch http_method_names route request
         ∉ [Some (update_action pk); Some (partial_update_action pk);
            Some (destroy_action pk)]).
Proof.
  destruct (run_keeps_events StockMovementCreateSerializer ops db) as [Hp Hl].
  split; [done|]. split; [|split; [done|]].
  - intros i m Hm. by eapply prefix_lookup_Some.
  - intros route request pk Hin.
    destruct (dispatch http_method_names route request) as [a|] eqn:Ha.
    + apply dispatch_get_post in Ha as [->|[->|[pk' ->]]];
        repeat (apply elem_of_cons in Hin as [[=]|Hin]);
        by apply elem_of_nil in Hin.
    + repeat (apply elem_of_cons in Hin as [[=]|Hin]);
        by apply elem_of_nil in Hin.
Qed.

(** ** The price of a sold line *)

Section PriceFrozen.

Variable StockMovementCreateSerializer :
  DB → list (string * FieldValue) → result StockMovement.t.

Local Abbreviation step := (Interface.step StockMovementCreateSerializer).
Local Abbreviation run := (Interface.run StockMovementCreateSerializer).

Lemma SaleItem_setattr_unit_price (o : SaleItem.t) (field : string)
    (v : FieldValue) :
  field ≠ "unit_price" →
  SaleItem.unit_price (SaleItem.setattr o field v) = SaleItem.unit_price o.
Proof.
  intros H. destruct o, v; unfold SaleItem.setattr;
    repeat case_decide; subst; done.
Qed.

Lemma SaleItem_change_unit_price (readonly_fields : list string)
    (o : SaleItem.t) (form : list (string * FieldValue)) :
  "unit_price" ∈ readonly_fields →
  SaleItem.unit_price
    (ModelAdmin_change readonly_fields SaleItem.setattr o form)
  = SaleItem.unit_price o.
Proof.
  intros Hro. unfold ModelAdmin_change. revert o.
  induction form as [|[field v] form IH]; intros o; [done|].
  cbn [foldl fst snd]. rewrite IH. case_bool_decide as Hf; [done|].
  apply SaleItem_setattr_unit_price. by intros ->.
Qed.

Lemma prices_kept_same (db db' : DB) :
  sale_items db' = sale_items db → prices_kept db db'.
Proof. intros H pk item'. rewrite H. eauto. Qed.

Lemma prices_kept_alter (db db' : DB) (pk0 : UUID)
    (readonly_fields : list string) (form : list (string * FieldValue)) :
  "unit_price" ∈ readonly_fields →
  sale_items db' =
    alter (λ o, ModelAdmin_change readonly_fields SaleItem.setattr o form)
          pk0 (sale_items db) →
  prices_kept db db'.
Proof.
  intros Hro H pk item'. rewrite H, lookup_alter.
  case_decide; [|eauto]. subst.
  destruct (sale_items db !! pk) as [item|]; [|done].
  intros [= <-]. eexists. split; [done|].
  by apply SaleItem_change_unit_price.
Qed.

Lemma prices_kept_delete (db db' : DB) (pk0 : UUID) :
  sale_items db' = delete pk0 (sale_items db) → prices_kept db db'.
Proof.
  intros H pk item'. rewrite H, lookup_delete. case_decide; [done|eauto].
Qed.

Lemma step_keeps_prices (op : Interface.Op) (db db' : DB) :
  step op db = Ok db' → prices_kept db db'.
Proof.
  destruct op; cbn [Interface.step].
  - destruct (StockViewSet_list request db); [|done].
    intros [= <-]. by apply prices_kept_same.
  - destruct (StockMovementViewSet _ _ _ _ _ _) as [r|] eqn:Hr; [|done].
    intros [= <-]. apply prices_kept_same.
    revert Hr. unfold StockMovementViewSet.
    destruct (dispatch _ _ _) as [[]|];
      try (destruct (get_queryset request db); cbn [mbind result_bind];
           [|done]);
      try (by intros [= <-]).
    + unfold create.
      destruct (StockMovementCreateSerializer _ _); [|done].
      cbn [mbind result_bind]. case_decide; [by intros [= <-]|].
      destruct (StockMovement.save _ _ _ _); [|done].
      cbn [mbind result_bind].
      destruct (InventorySerializers.StockMovementSerializer_data _); [|done].
      by intros [= <-].
    + destruct (List.find _ _); by intros [= <-].
    + unfold update. destruct (List.find _ _); by intros [= <-].
    + unfold update. destruct (List.find _ _); by intros [= <-].
    + unfold destroy. destruct (List.find _ _); by intros [= <-].
  - destruct (products db !! Product.id p); [done|].
    intros [= <-]. by apply prices_kept_same.
  - intros [= <-]. by apply prices_kept_same.
  - unfold Interface.delete_product, collect, collect_map.
    cbn [StockMovement.product_on_delete SaleItem.product_on_delete].
    destruct (existsb _ (stock_movements db)); [done|]. cbn [mbind result_bind].
    destruct (existsb _ _); [done|].
    intros [= <-]. by apply prices_kept_same.
  - intros [= <-]. by apply prices_kept_same.
  - unfold Interface.delete_warehouse, collect, collect_map.
    cbn [StockMovement.warehouse_on_delete Sale.warehouse_on_delete].
    destruct (existsb _ (stock_movements db)); [done|]. cbn [mbind result_bind].
    destruct (existsb _ _); [done|].
    intros [= <-]. by apply prices_kept_same.
  - done.
  - intros [= <-]. by apply prices_kept_same.
  - done.
  - intros [= <-]. by apply prices_kept_same.
  - unfold Interface.delete_account, collect.
    destruct LedgerEntry.account_on_delete;
      [|destruct (existsb _ _); [done|]]; intros [= <-];
      by apply prices_kept_same.
  - done.
  - intros [= <-]. by apply prices_kept_same.
  - done.
  - destruct (sales db !! pk); [|intros [= <-]; by apply prices_kept_same].
    destruct (SalesAdmin.SaleItemInline_has_delete_permission _); [|done].
    intros [= <-]. by apply prices_kept_same.
  - unfold Interface.delete_sale, collect_map. cbn [SaleItem.sale_on_delete].
    destruct (SalesAdmin.SaleAdmin_has_delete_permission _); [|done].
    destruct (existsb _ _); [done|].
    intros [= <-]. by apply prices_kept_same.
  - destruct (_ ≫= _); [|intros [= <-]; by apply prices_kept_same].
    destruct (SalesAdmin.SaleItemInline_has_delete_permission _); [|done].
    intros [= <-]. eapply prices_kept_alter; [|done].
    unfold SalesAdmin.SaleItemInline_readonly_fields. set_solver.
  - destruct (sales db !! sale); [|intros [= <-]; by apply prices_kept_same].
    destruct (SalesAdmin.SaleItemInline_has_delete_permission _) as [[]|];
      [|done|done].
    intros [= <-]. by eapply prices_kept_delete.
  - done.
  - intros [= <-]. eapply prices_kept_alter; [|done].
    unfold SalesAdmin.SaleItemAdmin_readonly_fields. set_solver.
  - unfold Interface.delete_sale_item.
    destruct (SalesAdmin.SaleItemAdmin_has_delete_permission _ _) as [[]|];
      [|done|done].
    intros [= <-]. by eapply prices_kept_delete.
  - unfold Interface.delete_category.
    cbn [Category.parent_on_delete mbind result_bind].
    destruct (collect_map _ _ _ _); [|done].
    intros [= <-]. by apply prices_kept_same.
  - unfold Interface.delete_user, collect, collect_map.
    cbn [StockMovement.created_by_on_delete Sale.sold_by_on_delete].
    destruct (existsb _ (stock_movements db)); [done|]. cbn [mbind result_bind].
    destruct (existsb _ _); [done|].
    intros [= <-]. by apply prices_kept_same.
Qed.

Lemma run_keeps_prices (ops : list Interface.Op) (db : DB) :
  prices_kept db (run ops db).
Proof.
  revert db. induction ops as [|op ops IH]; intros db.
  - by apply prices_kept_same.
  - cbn [Interface.run foldl]. intros pk item' H.
    apply IH in H as (item1 & H1 & E1).
    assert (prices_kept db (Interface.apply StockMovementCreateSerializer db op))
      as Hk.
    { unfold Interface.apply. destruct (step op db) eqn:Hs.
      - by eapply step_keeps_prices.
      - by apply prices_kept_same. }
    apply Hk in H1 as (item & H0 & E0). exists item. split; [done|congruence].
Qed.

End PriceFrozen.

Lemma representation_unit_price (db : DB) (item : SaleItem.t)
    (fields : list (string * FieldValue)) :
  SaleItemSerializer_to_representation db item = Ok fields →
  ("unit_price", VDecimal (SaleItem.unit_price item)) ∈ fields.
Proof.
  unfold SaleItemSerializer_to_representation.
  destruct (products db !! SaleItem.product item); [|done].
  intros [= <-]. set_solver.
Qed.

(** C5: whatever operations follow (a change of the product's price
    included), a sale item that is still stored has the unit price it had,
    for a completed sale as for any other, and the serialized item shows
    that stored price, not the product's. *)
Theorem unit_price_is_frozen
    (StockMovementCreateSerializer :
       DB → list (string * FieldValue) → result StockMovement.t)
    (ops : list Interface.Op) (db : DB) (pk : UUID) (item item' : SaleItem.t) :
  sale_items db !! pk = Some item →
  sale_items (Interface.run StockMovementCreateSerializer ops db) !! pk
    = Some item' →
  SaleItem.unit_price item' = SaleItem.unit_price item
  ∧ ∀ fields,
      SaleItemSerializer_to_representation
        (Interface.run StockMovementCreateSerializer ops db) item' = Ok fields →
      ("unit_price", VDecimal (SaleItem.unit_price item)) ∈ fields.
Proof.
  intros H0 H1.
  destruct (run_keeps_prices StockMovementCreateSerializer ops db pk item' H1)
    as (item0 & H0' & E).
  assert (item0 = item) as -> by congruence.
  split; [done|]. intros fields Hf. rewrite <- E.
  by eapply representation_unit_price.
Qed.

Lemma unit_price_is_frozen_witness :
  (sale_items Examples.after_sale !! 51%N = Some Examples.four_cables
   ∧ sale_items (Interface.run Examples.no_serializer Examples.price_changes
                   Examples.after_sale) !! 51%N = Some Examples.four_cables)
  ∧ Sale.status <$> sales Examples.after_sale !! 50%N = Some "COMPLETED"
  ∧ Product.unit_price
      <$> products (Interface.run Examples.no_serializer Examples.price_changes
                      Examples.after_sale) !! 1%N = Some 99900
  ∧ SaleItem.unit_price Examples.four_cables = 450000
  ∧ ∀ fields,
      SaleItemSerializer_to_representation
        (Interface.run Examples.no_serializer Examples.price_changes
           Examples.after_sale) Examples.four_cables = Ok fields →
      ("unit_price", VDecimal (SaleItem.unit_price Examples.four_cables))
        ∈ fields.
Proof.
  assert (H0 : sale_items Examples.after_sale !! 51%N = Some Examples.four_cables)
    by (vm_compute; reflexivity).
  assert (H1 : sale_items (Interface.run Examples.no_serializer
                             Examples.price_changes Examples.after_sale) !! 51%N
               = Some Examples.four_cables)
    by (vm_compute; reflexivity).
  split; [split; [exact H0 | exact H1]|].
  split; [vm_compute; reflexivity|].
  split; [vm_compute; reflexivity|].
  split; [reflexivity|].
  exact (proj2 (unit_price_is_frozen Examples.no_serializer
                  Examples.price_changes Examples.after_sale 51%N
                  Examples.four_cables Examples.four_cables H0 H1)).
Defined.

(** ** The reference of a stock movement *)

(** C9 as stated fails: a SALE movement with no reference id passes the
    model's validation and is stored. *)
Lemma sale_movement_without_reference_is_stored :
  StockMovement.movement_type Examples.sold = "SALE"
  ∧ StockMovement.reference_id Examples.sold = None
  ∧ StockMovement.full_clean true Examples.staff
      (products Examples.no_movements) (warehouses Examples.no_movements)
      [Examples.received] Examples.sold = Ok Examples.sold
  ∧ StockMovement.save (products Examples.no_movements)
      (warehouses Examples.no_movements) [Examples.received] Examples.sold
    = Ok [Examples.received; Examples.sold].
Proof. repeat split; vm_compute; reflexivity. Qed.

(** C9 (amended): no movement kind requires a reference id.  The field is
    declared optional, so validation gives a movement the same verdict
    whatever its reference id, absent or present, and saving a movement
    without reference id stores it exactly when saving it with one does. *)
Theorem reference_id_is_optional {User} (adding : bool)
    (users : gmap UUID User) (ps : gmap UUID Product.t)
    (ws : gmap UUID Warehouse.t) (table : list StockMovement.t)
    (m : StockMovement.t) (r : option UUID) :
  is_Ok (StockMovement.full_clean adding users ps ws table
           (StockMovement.set_reference_id r m))
    = is_Ok (StockMovement.full_clean adding users ps ws table m)
  ∧ StockMovement.save ps ws table (StockMovement.set_reference_id None m)
    = (λ _, table ++ [StockMovement.set_reference_id None m])
        <$> StockMovement.save ps ws table m.
Proof.
  destruct m as [i p w mt q rt r0 cb ca].
  unfold StockMovement.full_clean, StockMovement.save.
  cbn [StockMovement.set_reference_id StockMovement.product
       StockMovement.warehouse StockMovement.movement_type
       StockMovement.quantity StockMovement.reference_type
       StockMovement.reference_id StockMovement.created_by
       StockMovement.id].
  split.
  - destruct (ForeignKey_validate ps p); cbn [mbind result_bind]; [|done].
    destruct (ForeignKey_validate ws w); cbn [mbind result_bind]; [|done].
    destruct (CharField_clean StockMovement.movement_type_field mt);
      cbn [mbind result_bind]; [|done].
    destruct (DecimalField_run_validation StockMovement.quantity_field q);
      cbn [mbind result_bind]; [|done].
    destruct (CharField_clean StockMovement.reference_type_field rt);
      cbn [mbind result_bind]; [|done].
    unfold nullable_clean. cbn [StockMovement.reference_id_field blank null].
    destruct r, r0; cbn [mbind result_bind];
      (destruct (ForeignKey_validate users cb); cbn [mbind result_bind];
         [|done]);
      by destruct (adding && bool_decide _).
  - unfold column_insert. cbn [StockMovement.reference_id_field null].
    destruct r0; cbn [mbind result_bind];
      (destruct (primary_key_insert _ _ i); cbn [mbind result_bind fmap];
         [|done]);
      (destruct (ForeignKey_insert _ ps p); cbn [mbind result_bind fmap];
         [|done]);
      by destruct (ForeignKey_insert _ ws w).
Qed.

(** ** Completing a sale *)

Import Workflow.

(** C2: when the stock check fails for one stock-tracked item of a pending
    sale, [complete] is rejected with [InsufficientStockError] and returns
    the database as it was: no movement, no ledger entry, no audit record
    and no change of status, whatever the other items of the sale. *)
Theorem failed_stock_check_rejects_whole_sale (uuid4 : nat → UUID) (now : Z)
    (user revenue sale : UUID) (db : DB) (x : Sale.t) (item : SaleItem.t) :
  sales db !! sale = Some x →
  Sale.status x = "PENDING" →
  item ∈ items_all db x →
  tracks_stock db item = true →
  currentStock db (SaleItem.product item) (Sale.warehouse x)
    < SaleItem.quantity item →
  complete uuid4 now user revenue sale db = (db, Rejected InsufficientStockError)
  ∧ stock_movements (complete uuid4 now user revenue sale db).1
      = stock_movements db
  ∧ ledger_entries (complete uuid4 now user revenue sale db).1
      = ledger_entries db
  ∧ audit_logs (complete uuid4 now user revenue sale db).1 = audit_logs db
  ∧ sales (complete uuid4 now user revenue sale db).1 !! sale = Some x.
Proof.
  intros Hx Hst Hin Htr Hlt.
  assert (complete uuid4 now user revenue sale db
          = (db, Rejected InsufficientStockError)) as ->; [|done].
  unfold complete. rewrite Hx. rewrite decide_False by (by rewrite Hst; intros []).
  rewrite decide_False by (intros E; rewrite E in Hin; by apply elem_of_nil in Hin).
  destruct (forallb (stock_check db x) (items_all db x)) eqn:Hall; [|done].
  exfalso. rewrite forallb_forall in Hall.
  specialize (Hall item (proj1 (list_elem_of_In _ _) Hin)).
  unfold stock_check in Hall. rewrite Htr in Hall. cbn [negb orb] in Hall.
  apply bool_decide_eq_true in Hall. lia.
Qed.

Lemma failed_stock_check_rejects_whole_sale_witness :
  (sales Examples.two_pending !! 80%N = Some Examples.short_sale
   ∧ Sale.status Examples.short_sale = "PENDING"
   ∧ Examples.fifteen_next ∈ items_all Examples.two_pending Examples.short_sale
   ∧ tracks_stock Examples.two_pending Examples.fifteen_next = true
   ∧ currentStock Examples.two_pending
       (SaleItem.product Examples.fifteen_next)
       (Sale.warehouse Examples.short_sale)
     < SaleItem.quantity Examples.fifteen_next)
  ∧ stock_check Examples.two_pending Examples.short_sale Examples.four_first
    = true
  ∧ complete Examples.uuid4 900 5%N 40%N 80%N Examples.two_pending
    = (Examples.two_pending, Rejected InsufficientStockError).
Proof.
  assert (H1 : sales Examples.two_pending !! 80%N = Some Examples.short_sale)
    by (vm_compute; reflexivity).
  assert (H2 : Sale.status Examples.short_sale = "PENDING") by reflexivity.
  assert (H3 : Examples.fifteen_next
                 ∈ items_all Examples.two_pending Examples.short_sale)
    by (apply list_elem_of_In; vm_compute; tauto).
  assert (H4 : tracks_stock Examples.two_pending Examples.fifteen_next = true)
    by (vm_compute; reflexivity).
  assert (H5 : currentStock Examples.two_pending
                 (SaleItem.product Examples.fifteen_next)
                 (Sale.warehouse Examples.short_sale)
               < SaleItem.quantity Examples.fifteen_next)
    by (vm_compute; reflexivity).
  split; [repeat split; assumption|].
  split; [vm_compute; reflexivity|].
  exact (proj1 (failed_stock_check_rejects_whole_sale Examples.uuid4 900 5%N
                  40%N 80%N Examples.two_pending Examples.short_sale
                  Examples.fifteen_next H1 H2 H3 H4 H5)).
Defined.

Lemma complete_Completed (uuid4 : nat → UUID) (now : Z) (user revenue sale : UUID)
    (db db1 : DB) (ids : list UUID) :
  complete uuid4 now user revenue sale db = (db1, Completed ids) →
  ∃ x, sales db !! sale = Some x
       ∧ Sale.status x = "PENDING"
       ∧ db1 =
           set_audit_logs
             (audit_logs db ++
                [{| AuditLog.id := uuid4 (S (length (tracked_items db x)));
                    AuditLog.user := user;
                    AuditLog.action := "UPDATE";
                    AuditLog.entity_type := "Sale";
                    AuditLog.entity_id := Sale.id x;
                    AuditLog.before_state :=
                      Some (snapshot x (items_all db x) []);
                    AuditLog.after_state :=
                      Some (snapshot (Sale.set_status "COMPLETED" x)
                              (items_all db x) ids);
                    AuditLog.created_at := now |}])
             (set_sales (<[sale := Sale.set_status "COMPLETED" x]> (sales db))
                (set_ledger_entries
                   (ledger_entries db ++
                      [sale_entry x revenue
                         (uuid4 (length (tracked_items db x))) now])
                   (set_stock_movements
                      (stock_movements db ++ sale_movements uuid4 now user db x)
                      db))).
Proof.
  unfold complete. destruct (sales db !! sale) as [x|]; [|done].
  case_decide as Hst; [done|]. case_decide; [done|].
  destruct (negb _); [done|].
  intros [= <- <-]. exists x. split; [done|]. split; [|done].
  by destruct (decide (Sale.status x = "PENDING")).
Qed.

(** C4: once [complete] has succeeded for a sale, a second [complete] of the
    same sale is rejected with [InvalidStateError] and changes nothing: the
    movements and the ledger entry of the first call, each referring to the
    sale, are the only ones added. *)
Theorem second_complete_is_rejected (uuid4 uuid4' : nat → UUID) (now now' : Z)
    (user revenue user' revenue' sale : UUID) (db db1 : DB) (ids : list UUID) :
  complete uuid4 now user revenue sale db = (db1, Completed ids) →
  complete uuid4' now' user' revenue' sale db1
    = (db1, Rejected InvalidStateError)
  ∧ ∃ x, sales db !! sale = Some x
      ∧ stock_movements
          (complete uuid4' now' user' revenue' sale db1).1
        = stock_movements db ++ sale_movements uuid4 now user db x
      ∧ Forall (λ m, StockMovement.reference_id m = Some (Sale.id x))
               (sale_movements uuid4 now user db x)
      ∧ ledger_entries
          (complete uuid4' now' user' revenue' sale db1).1
        = ledger_entries db
            ++ [sale_entry x revenue (uuid4 (length (tracked_items db x))) now]
      ∧ LedgerEntry.reference_id
          (sale_entry x revenue (uuid4 (length (tracked_items db x))) now)
        = Sale.id x.
Proof.
  intros H. apply complete_Completed in H as (x & Hx & Hst & Hdb1).
  assert (sales db1 !! sale = Some (Sale.set_status "COMPLETED" x)) as Hx1.
  { rewrite Hdb1. cbn [sales set_audit_logs set_sales]. apply lookup_insert_eq. }
  assert (complete uuid4' now' user' revenue' sale db1
          = (db1, Rejected InvalidStateError)) as ->.
  { unfold complete. rewrite Hx1. by rewrite decide_True. }
  split; [done|]. exists x. split; [done|]. cbn [fst]. rewrite Hdb1.
  cbn [stock_movements ledger_entries set_audit_logs set_sales
       set_ledger_entries set_stock_movements].
  split; [done|]. split; [|done].
  unfold sale_movements. apply Forall_fmap, Forall_forall. by intros [].
Qed.

Lemma second_complete_is_rejected_witness :
  complete Examples.uuid4 800 5%N 40%N 60%N Examples.two_pending
    = (Examples.first_completed, Completed [1000%N; 1001%N])
  ∧ complete Examples.uuid4 900 5%N 40%N 60%N Examples.first_completed
    = (Examples.first_completed, Rejected InvalidStateError)
  ∧ length (stock_movements Examples.first_completed) = 3%nat
  ∧ length (ledger_entries Examples.first_completed) = 1%nat
  ∧ currentStock Examples.first_completed 1%N 2%N = 2000.
Proof.
  assert (H : complete Examples.uuid4 800 5%N 40%N 60%N Examples.two_pending
              = (Examples.first_completed, Completed [1000%N; 1001%N]))
    by (vm_compute; reflexivity).
  split; [exact H|].
  split; [exact (proj1 (second_complete_is_rejected Examples.uuid4
                          Examples.uuid4 800 900 5%N 40%N 5%N 40%N 60%N
                          Examples.two_pending Examples.first_completed
                          [1000%N; 1001%N] H))|].
  repeat split; vm_compute; reflexivity.
Defined.

(** * Further properties of the code *)

(** ** Posting a stock movement *)

Lemma stamped_movement (v : StockMovement.t) (u uuid4 : UUID) (now : Z) :
  StockMovement.setattr
    (StockMovement.setattr
       (StockMovement.setattr v "created_by" (VUUID u)) "id" (VUUID uuid4))
    "created_at" (VDateTime now)
  = {| StockMovement.id := uuid4;
       StockMovement.product := StockMovement.product v;
       StockMovement.warehouse := StockMovement.warehouse v;
       StockMovement.movement_type := StockMovement.movement_type v;
       StockMovement.quantity := StockMovement.quantity v;
       StockMovement.reference_type := StockMovement.reference_type v;
       StockMovement.reference_id := StockMovement.reference_id v;
       StockMovement.created_by := u;
       StockMovement.created_at := now |}.
Proof. by destruct v. Qed.

(** X2: [StockMovementViewSet.create], given the movement its serializer
    validated.  A movement that is not an ADJUSTMENT is answered 400 and
    nothing is stored.  An ADJUSTMENT whose quantity has at most fifteen
    digits and whose reference type is a declared choice is stored when the
    identifier drawn for it is not that of a stored movement and its
    product and warehouse exist: it is answered 201 and is the last row of
    the table, stamped with the requesting user (whatever [created_by] was
    posted), the identifier and the time, its other fields as validated.
    When the identifier is that of a stored movement, the product or the
    warehouse does not exist, or the quantity has more than fifteen digits,
    [create] raises and nothing is stored. *)
Theorem create_stores_adjustments_only
    (StockMovementCreateSerializer :
       DB → list (string * FieldValue) → result StockMovement.t)
    (uuid4 : UUID) (now : Z) (request : Request) (db : DB)
    (v : StockMovement.t) :
  StockMovementCreateSerializer db (data request) = Ok v →
  (StockMovement.movement_type v ≠ "ADJUSTMENT" →
     create StockMovementCreateSerializer uuid4 now request db
     = Ok (db, {| status := HTTP_400_BAD_REQUEST;
                  body := Error ADJUSTMENT_only |}))
  ∧ (StockMovement.movement_type v = "ADJUSTMENT" →
     (uuid4 ∉ StockMovement.id <$> stock_movements db) →
     is_Some (products db !! StockMovement.product v) →
     is_Some (warehouses db !! StockMovement.warehouse v) →
     representable StockMovement.quantity_field (StockMovement.quantity v)
       = true →
     StockMovement.reference_type v
       ∈ StockMovement.REFERENCE_TYPE_CHOICES.*1 →
     let m :=
       {| StockMovement.id := uuid4;
          StockMovement.product := StockMovement.product v;
          StockMovement.warehouse := StockMovement.warehouse v;
          StockMovement.movement_type := "ADJUSTMENT";
          StockMovement.quantity := StockMovement.quantity v;
          StockMovement.reference_type := StockMovement.reference_type v;
          StockMovement.reference_id := StockMovement.reference_id v;
          StockMovement.created_by := user request;
          StockMovement.created_at := now |} in
     create StockMovementCreateSerializer uuid4 now request db
     = Ok (set_stock_movements (stock_movements db ++ [m]) db,
           {| status := HTTP_201_CREATED; body := Movement m |}))
  ∧ (StockMovement.movement_type v = "ADJUSTMENT" →
     uuid4 ∈ StockMovement.id <$> stock_movements db
     ∨ products db !! StockMovement.product v = None
     ∨ warehouses db !! StockMovement.warehouse v = None
     ∨ representable StockMovement.quantity_field (StockMovement.quantity v)
       = false →
     is_Ok (create StockMovementCreateSerializer uuid4 now request db)
     = false).
Proof.
  intros Hv. unfold create. rewrite Hv. cbn [mbind result_bind].
  split; [|split].
  - intros Hne. by rewrite decide_True.
  - intros Heq Hid Hp Hw Hq _. rewrite decide_False by (by intros []).
    rewrite stamped_movement, Heq.
    match goal with
    | |- context [StockMovement.save ?ps ?ws ?t ?m] =>
        assert (StockMovement.save ps ws t m = Ok (t ++ [m])) as ->
          by (by apply save_Ok)
    end.
    unfold InventorySerializers.StockMovementSerializer_data.
    cbn [StockMovement.quantity mbind result_bind]. by rewrite Hq.
  - intros Heq Hbad. rewrite decide_False by (by intros []).
    rewrite stamped_movement.
    destruct (StockMovement.save _ _ _ _) as [table|] eqn:Hs; [|done].
    apply save_Ok in Hs as (_ & Hid & Hp & Hw).
    cbn [StockMovement.id StockMovement.product StockMovement.warehouse]
      in Hid, Hp, Hw.
    destruct Hbad as [?|[Hn|[Hn|Hn]]]; [done|..].
    + rewrite Hn in Hp. by destruct Hp.
    + rewrite Hn in Hw. by destruct Hw.
    + unfold InventorySerializers.StockMovementSerializer_data.
      cbn [StockMovement.quantity mbind result_bind]. by rewrite Hn.
Qed.

Lemma create_stores_adjustments_only_witness :
  Cases.correction_serializer Examples.two_movements (data Cases.post_correction)
    = Ok Cases.correction
  ∧ create Cases.correction_serializer 99%N 900 Cases.post_correction
      Examples.two_movements
    = Ok (set_stock_movements
            [Examples.received; Examples.sold;
             StockMovement.setattr
               (StockMovement.setattr
                  (StockMovement.setattr Cases.correction "created_by"
                     (VUUID 5%N)) "id" (VUUID 99%N))
               "created_at" (VDateTime 900)]
            Examples.two_movements,
          {| status := HTTP_201_CREATED;
             body :=
               Movement
                 (StockMovement.setattr
                    (StockMovement.setattr
                       (StockMovement.setattr Cases.correction "created_by"
                          (VUUID 5%N)) "id" (VUUID 99%N))
                    "created_at" (VDateTime 900)) |})
  ∧ is_Ok (create Cases.correction_serializer 11%N 900 Cases.post_correction
             Examples.two_movements) = false.
Proof.
  assert (H : Cases.correction_serializer Examples.two_movements
                (data Cases.post_correction) = Ok Cases.correction)
    by reflexivity.
  split; [exact H|].
  destruct (create_stores_adjustments_only Cases.correction_serializer
              99%N 900 Cases.post_correction Examples.two_movements
              Cases.correction H) as (_ & Hstored & _).
  destruct (create_stores_adjustments_only Cases.correction_serializer
              11%N 900 Cases.post_correction Examples.two_movements
              Cases.correction H) as (_ & _ & Hrefused).
  split.
  - apply Hstored.
    + reflexivity.
    + cbn. intros Hin.
      repeat (apply elem_of_cons in Hin as [Hin|Hin]; [discriminate|]).
      by apply elem_of_nil in Hin.
    + vm_compute. eauto.
    + vm_compute. eauto.
    + reflexivity.
    + cbn. apply list_elem_of_further, list_elem_of_further,
        list_elem_of_here.
  - apply Hrefused; [reflexivity|]. left. cbn. apply list_elem_of_here.
Defined.

(** X3: the movement endpoints answer 405 and leave the database as it is
    for every method other than GET and POST, and for POST on the route of
    one movement. *)
Theorem other_methods_are_not_allowed
    (StockMovementCreateSerializer :
       DB → list (string * FieldValue) → result StockMovement.t)
    (uuid4 : UUID) (now : Z) (route : Route) (request : Request) (db : DB) :
  method request ∉ ["get"; "post"]
  ∨ (method request = "post" ∧ route ≠ ListRoute) →
  StockMovementViewSet StockMovementCreateSerializer uuid4 now route request db
  = Ok (db, {| status := HTTP_405_METHOD_NOT_ALLOWED; body := NoBody |}).
Proof.
  intros H. unfold StockMovementViewSet, dispatch, http_method_names.
  destruct H as [H|[H Hr]].
  - by rewrite bool_decide_eq_false_2.
  - rewrite H. destruct route; [done|]. reflexivity.
Qed.

Lemma other_methods_are_not_allowed_witness :
  (method Cases.delete_movement ∉ ["get"; "post"]
   ∨ (method Cases.delete_movement = "post" ∧ DetailRoute 11%N ≠ ListRoute))
  ∧ StockMovementViewSet Cases.correction_serializer 99%N 900
      (DetailRoute 11%N) Cases.delete_movement Examples.two_movements
    = Ok (Examples.two_movements,
          {| status := HTTP_405_METHOD_NOT_ALLOWED; body := NoBody |}).
Proof.
  assert (H : method Cases.delete_movement ∉ ["get"; "post"]
              ∨ (method Cases.delete_movement = "post"
                 ∧ DetailRoute 11%N ≠ ListRoute)).
  { left. cbn [method Cases.delete_movement]. intros Hin.
    repeat (apply elem_of_cons in Hin as [Hin|Hin]; [discriminate|]).
    by apply elem_of_nil in Hin. }
  split; [exact H|].
  exact (other_methods_are_not_allowed Cases.correction_serializer 99%N 900
           (DetailRoute 11%N) Cases.delete_movement Examples.two_movements H).
Defined.

(** ** Listing the stock movements *)

Global Instance newest_first_total : Total newest_first.
Proof. intros a b. unfold newest_first. lia. Qed.

Global Instance newest_first_trans : Transitive newest_first.
Proof. intros a b c. unfold newest_first. lia. Qed.

Lemma StronglySorted_filter {A} (R : relation A) (P : A → Prop)
    `{∀ x, Decision (P x)} (l : list A) :
  StronglySorted R l → StronglySorted R (filter P l).
Proof.
  induction 1 as [|x l Hl IH Hx]; [constructor|].
  rewrite filter_cons. case_decide; [|done].
  constructor; [done|].
  apply Forall_forall. intros y Hy%list_elem_of_filter.
  rewrite Forall_forall in Hx. apply Hx. tauto.
Qed.

(** X4: when [get_queryset] returns, its list holds exactly the stored
    movements that match the given filters (an empty parameter is no
    filter; [movement_type] is compared with the column as the engine
    compares texts, and is not checked against the choices), each as often
    as it is stored, newest first; a [product_id] or [warehouse_id] that
    [uuid.UUID] does not read makes it raise. *)
Theorem get_queryset_filters_and_sorts (request : Request) (db : DB) :
  match uuid_param (query_params request !! "product_id"),
        uuid_param (query_params request !! "warehouse_id") with
  | Ok p, Ok w =>
      ∃ ms, get_queryset request db = Ok ms
        ∧ StronglySorted newest_first ms
        ∧ ms ≡ₚ filter (λ m, selected p w m
                             ∧ varchar_matches (engine db)
                                 (truthy (query_params request !! "movement_type"))
                                 (StockMovement.movement_type m))
                       (stock_movements db)
  | Raise e, _ => get_queryset request db = Raise e
  | Ok _, Raise e => get_queryset request db = Raise e
  end.
Proof.
  unfold get_queryset, query_param, Request_getattr.
  rewrite decide_True by done. cbn [mbind result_bind getattr].
  rewrite decide_True by done. cbn [mbind result_bind call].
  destruct (uuid_param (query_params request !! "product_id")) as [p|e];
    cbn [mbind result_bind]; [|done].
  destruct (uuid_param (query_params request !! "warehouse_id")) as [w|e];
    cbn [mbind result_bind]; [|done].
  eexists. split; [done|]. split.
  - do 2 apply StronglySorted_filter. apply StronglySorted_merge_sort; apply _.
  - rewrite list_filter_filter, merge_sort_Permutation.
    erewrite list_filter_iff; [done|]. intros m. simpl. tauto.
Qed.

(** ** Validation of a stock movement *)

Lemma movement_type_clean (v : string) :
  CharField_clean StockMovement.movement_type_field v
  = if bool_decide (v ∈ StockMovement.MOVEMENT_TYPE_CHOICES.*1) then Ok v
    else Raise (if bool_decide (v = "")
                then Python.ValidationError "This field cannot be blank."
                else Python.ValidationError "Value is not a valid choice.").
Proof.
  case_bool_decide as Hin.
  - cbn in Hin.
    repeat (apply elem_of_cons in Hin as [->|Hin]; [reflexivity|]).
    by apply elem_of_nil in Hin.
  - unfold CharField_clean.
    cbn [blank choices max_length StockMovement.movement_type_field andb negb].
    rewrite (bool_decide_eq_true_2 _ Hin), andb_true_r.
    by destruct (decide (v = "")) as [->|Hne];
      [|rewrite (bool_decide_eq_true_2 _ Hne), (bool_decide_eq_false_2 _ Hne)].
Qed.

Lemma reference_type_clean (v : string) :
  CharField_clean StockMovement.reference_type_field v
  = if bool_decide (v ∈ StockMovement.REFERENCE_TYPE_CHOICES.*1) then Ok v
    else Raise (if bool_decide (v = "")
                then Python.ValidationError "This field cannot be blank."
                else Python.ValidationError "Value is not a valid choice.").
Proof.
  case_bool_decide as Hin.
  - cbn in Hin.
    repeat (apply elem_of_cons in Hin as [->|Hin]; [reflexivity|]).
    by apply elem_of_nil in Hin.
  - unfold CharField_clean.
    cbn [blank choices max_length StockMovement.reference_type_field andb negb].
    rewrite (bool_decide_eq_true_2 _ Hin), andb_true_r.
    by destruct (decide (v = "")) as [->|Hne];
      [|rewrite (bool_decide_eq_true_2 _ Hne), (bool_decide_eq_false_2 _ Hne)].
Qed.

(** X5: [full_clean] accepts a stock movement exactly when its product,
    its warehouse and the user it was created by exist, its movement type
    and reference type are among the declared choices, its quantity has at
    most fifteen digits and, for an instance that is being added, no stored
    movement has its identifier; it never alters the movement, and it
    gives the same verdict for a quantity and for its opposite, whatever
    the movement type. *)
Theorem full_clean_accepts {User} (adding : bool) (users : gmap UUID User)
    (ps : gmap UUID Product.t) (ws : gmap UUID Warehouse.t)
    (table : list StockMovement.t) (m : StockMovement.t) :
  is_Ok (StockMovement.full_clean adding users ps ws table m)
  = bool_decide (is_Some (ps !! StockMovement.product m))
    && bool_decide (is_Some (ws !! StockMovement.warehouse m))
    && bool_decide (StockMovement.movement_type m
                    ∈ StockMovement.MOVEMENT_TYPE_CHOICES.*1)
    && bool_decide (Z.abs (StockMovement.quantity m) < 10 ^ 15)
    && bool_decide (StockMovement.reference_type m
                    ∈ StockMovement.REFERENCE_TYPE_CHOICES.*1)
    && bool_decide (is_Some (users !! StockMovement.created_by m))
    && negb (adding
             && bool_decide (StockMovement.id m
                             ∈ StockMovement.id <$> table))
  ∧ (∀ m', StockMovement.full_clean adding users ps ws table m = Ok m' →
           m' = m)
  ∧ is_Ok (StockMovement.full_clean adding users ps ws table
             (StockMovement.setattr m "quantity"
                (VDecimal (- StockMovement.quantity m))))
    = is_Ok (StockMovement.full_clean adding users ps ws table m).
Proof.
  assert (∀ x, is_Ok (StockMovement.full_clean adding users ps ws table x)
    = bool_decide (is_Some (ps !! StockMovement.product x))
      && bool_decide (is_Some (ws !! StockMovement.warehouse x))
      && bool_decide (StockMovement.movement_type x
                      ∈ StockMovement.MOVEMENT_TYPE_CHOICES.*1)
      && bool_decide (Z.abs (StockMovement.quantity x) < 10 ^ 15)
      && bool_decide (StockMovement.reference_type x
                      ∈ StockMovement.REFERENCE_TYPE_CHOICES.*1)
      && bool_decide (is_Some (users !! StockMovement.created_by x))
      && negb (adding
               && bool_decide (StockMovement.id x
                               ∈ StockMovement.id <$> table))) as Hchar.
  { intros x. unfold StockMovement.full_clean, ForeignKey_validate,
      DecimalField_run_validation, representable.
    rewrite movement_type_clean, reference_type_clean.
    change (10 ^ Z.of_nat (max_digits StockMovement.quantity_field))
      with (10 ^ 15).
    destruct (bool_decide (is_Some (ps !! _))); [|done].
    destruct (bool_decide (is_Some (ws !! _))); [|done].
    destruct (bool_decide (StockMovement.movement_type x ∈ _)); [|done].
    destruct (bool_decide (Z.abs _ < _)); [|done].
    destruct (bool_decide (StockMovement.reference_type x ∈ _)); [|done].
    cbn [mbind result_bind andb].
    destruct (StockMovement.reference_id x); cbn [nullable_clean
      StockMovement.reference_id_field blank mbind result_bind];
      (destruct (bool_decide (is_Some (users !! _)));
         cbn [mbind result_bind]; [|done]);
      by destruct (adding && bool_decide _). }
  split; [apply Hchar|]. split.
  - unfold StockMovement.full_clean. intros m'.
    repeat (match goal with
            | |- context [?r ≫= _] =>
                match r with
                | _ ≫= _ => fail 1
                | _ => destruct r; cbn [mbind result_bind]; [|done]
                end
            end).
    by intros [= <-].
  - rewrite !Hchar. destruct m as [i p w mt q rt r cb ca].
    cbn [StockMovement.setattr]. rewrite decide_True by done.
    cbn [StockMovement.product StockMovement.warehouse
         StockMovement.movement_type StockMovement.quantity
         StockMovement.reference_type StockMovement.created_by
         StockMovement.id].
    by rewrite Z.abs_opp.
Qed.

(** ** Events keep referring to stored rows *)

Lemma save_inv (ps : gmap UUID Product.t) (ws : gmap UUID Warehouse.t)
    (table table' : list StockMovement.t) (m : StockMovement.t) :
  StockMovement.save ps ws table m = Ok table' →
  is_Some (ps !! StockMovement.product m)
  ∧ is_Some (ws !! StockMovement.warehouse m)
  ∧ table' = table ++ [m].
Proof. intros (-> & _ & Hp & Hw)%save_Ok. done. Qed.

Lemma existsb_false_Forall {A} (f : A → bool) (l : list A) :
  existsb f l = false → Forall (λ x, f x = false) l.
Proof.
  induction l as [|x l IH]; [constructor|]. cbn [existsb].
  intros [Hx Hl]%orb_false_elim. constructor; auto.
Qed.

Lemma Forall_both {A} (P Q R : A → Prop) (l : list A) :
  Forall P l → Forall Q l → (∀ x, P x → Q x → R x) → Forall R l.
Proof.
  intros HP HQ H. induction HP; inversion_clear HQ; constructor; auto.
Qed.

Section Referring.

Variable StockMovementCreateSerializer :
  DB → list (string * FieldValue) → result StockMovement.t.

Lemma StockMovementViewSet_appends (uuid4 : UUID) (now : Z) (route : Route)
    (request : Request) (db : DB) (r : DB * Response) :
  StockMovementViewSet StockMovementCreateSerializer uuid4 now route request db
    = Ok r →
  r.1 = db
  ∨ ∃ m, r.1 = set_stock_movements (stock_movements db ++ [m]) db
         ∧ is_Some (products db !! StockMovement.product m)
         ∧ is_Some (warehouses db !! StockMovement.warehouse m).
Proof.
  unfold StockMovementViewSet.
  destruct (dispatch http_method_names route request) as [a|] eqn:Ha.
  - apply dispatch_get_post in Ha as [->|[->|[pk ->]]].
    + destruct (get_queryset request db); cbn [mbind result_bind]; [|done].
      intros [= <-]. by left.
    + unfold create.
      destruct (StockMovementCreateSerializer db (data request)) as [v|];
        cbn [mbind result_bind]; [|done].
      case_decide; [intros [= <-]; by left|].
      destruct (StockMovement.save _ _ _ _) as [table|] eqn:Hs;
        cbn [mbind result_bind]; [|done].
      apply save_inv in Hs as (Hp & Hw & ->).
      destruct (InventorySerializers.StockMovementSerializer_data _);
        cbn [mbind result_bind]; [|done].
      intros [= <-]. right. eauto.
    + destruct (get_queryset request db) as [ms|]; cbn [mbind result_bind];
        [|done].
      destruct (List.find _ ms); intros [= <-]; by left.
  - intros [= <-]. by left.
Qed.

Lemma step_keeps_referring (op : Interface.Op) (db db' : DB) :
  Interface.step StockMovementCreateSerializer op db = Ok db' →
  events_refer db → events_refer db'.
Proof.
  unfold events_refer. intros Hstep [Hm He].
  destruct op; cbn [Interface.step] in Hstep.
  - destruct (StockViewSet_list request db); [|done].
    by injection Hstep as <-.
  - destruct (StockMovementViewSet _ _ _ _ _ _) as [r|] eqn:Hr; [|done].
    injection Hstep as <-.
    apply StockMovementViewSet_appends in Hr as [->|(m & -> & Hp & Hw)];
      [done|].
    split; [|done]. cbn. apply Forall_app. split; [done|].
    by repeat constructor.
  - destruct (products db !! Product.id p) eqn:Hp; [done|].
    injection Hstep as <-. split; [|done]. cbn.
    eapply Forall_impl; [exact Hm|]. intros m [H1 H2]. split; [|done].
    by apply lookup_insert_is_Some'; right.
  - injection Hstep as <-. split; [|done]. cbn.
    eapply Forall_impl; [exact Hm|]. intros m [H1 H2]. split; [|done].
    rewrite lookup_alter. case_decide; [|done]. subst.
    by apply fmap_is_Some.
  - unfold Interface.delete_product, collect, collect_map in Hstep.
    cbn [StockMovement.product_on_delete SaleItem.product_on_delete] in Hstep.
    destruct (existsb _ (stock_movements db)) eqn:Hex; [done|].
    cbn [mbind result_bind] in Hstep.
    destruct (existsb _ (map_to_list _).*2); [done|].
    cbn [mbind result_bind] in Hstep. injection Hstep as <-.
    split; [|done]. cbn. apply existsb_false_Forall in Hex.
    eapply Forall_both; [exact Hm|exact Hex|].
    intros m [H1 H2] Hne. split; [|done].
    apply bool_decide_eq_false in Hne. by rewrite lookup_delete_ne.
  - injection Hstep as <-. split; [|done]. cbn.
    eapply Forall_impl; [exact Hm|]. intros m [H1 H2]. split; [done|].
    by apply lookup_insert_is_Some'; right.
  - unfold Interface.delete_warehouse, collect, collect_map in Hstep.
    cbn [StockMovement.warehouse_on_delete Sale.warehouse_on_delete] in Hstep.
    destruct (existsb _ (stock_movements db)) eqn:Hex; [done|].
    cbn [mbind result_bind] in Hstep.
    destruct (existsb _ (map_to_list _).*2); [done|].
    cbn [mbind result_bind] in Hstep. injection Hstep as <-.
    split; [|done]. cbn. apply existsb_false_Forall in Hex.
    eapply Forall_both; [exact Hm|exact Hex|].
    intros m [H1 H2] Hne. split; [done|].
    apply bool_decide_eq_false in Hne. by rewrite lookup_delete_ne.
  - done.
  - injection Hstep as <-. split; [|done]. cbn. unfold change_view.
    rewrite list_change_fixed; [done|]. intros o.
    apply ModelAdmin_change_fixed. intros ???.
    apply StockMovement_setattr_readonly.
  - done.
  - injection Hstep as <-. split; [done|]. cbn.
    eapply Forall_impl; [exact He|]. intros e H1.
    by apply lookup_insert_is_Some'; right.
  - unfold Interface.delete_account, collect in Hstep.
    cbn [LedgerEntry.account_on_delete] in Hstep.
    destruct (existsb _ (ledger_entries db)) eqn:Hex; [done|].
    injection Hstep as <-.
    split; [done|]. cbn. apply existsb_false_Forall in Hex.
    eapply Forall_both; [exact He|exact Hex|].
    intros e H1 Hne.
    apply bool_decide_eq_false in Hne. by rewrite lookup_delete_ne.
  - done.
  - injection Hstep as <-. split; [done|]. cbn. unfold change_view.
    rewrite list_change_fixed; [done|]. intros o.
    apply ModelAdmin_change_fixed. intros ???.
    apply LedgerEntry_setattr_readonly.
  - done.
  - destruct (sales db !! pk); [|by injection Hstep as <-].
    destruct (SalesAdmin.SaleItemInline_has_delete_permission _); [|done].
    by injection Hstep as <-.
  - unfold Interface.delete_sale, collect_map in Hstep.
    cbn [SaleItem.sale_on_delete] in Hstep.
    destruct (SalesAdmin.SaleAdmin_has_delete_permission _); [|done].
    destruct (existsb _ (map_to_list _).*2); [done|].
    cbn [mbind result_bind] in Hstep. by injection Hstep as <-.
  - destruct (_ ≫= _); [|by injection Hstep as <-].
    destruct (SalesAdmin.SaleItemInline_has_delete_permission _); [|done].
    by injection Hstep as <-.
  - destruct (sales db !! sale); [|by injection Hstep as <-].
    destruct (SalesAdmin.SaleItemInline_has_delete_permission _) as [[]|];
      [|done|done].
    by injection Hstep as <-.
  - done.
  - by injection Hstep as <-.
  - unfold Interface.delete_sale_item in Hstep.
    destruct (SalesAdmin.SaleItemAdmin_has_delete_permission _ _) as [[]|];
      [|done|done].
    by injection Hstep as <-.
  - unfold Interface.delete_category, collect_map in Hstep.
    cbn [Category.parent_on_delete Product.category_on_delete
         mbind result_bind] in Hstep.
    destruct (existsb _ (map_to_list _).*2); [done|].
    cbn [mbind result_bind] in Hstep. by injection Hstep as <-.
  - unfold Interface.delete_user, collect, collect_map in Hstep.
    cbn [StockMovement.created_by_on_delete Sale.sold_by_on_delete] in Hstep.
    destruct (existsb _ (stock_movements db)); [done|].
    cbn [mbind result_bind] in Hstep.
    destruct (existsb _ (map_to_list _).*2); [done|].
    cbn [mbind result_bind] in Hstep. by injection Hstep as <-.
Qed.

Lemma run_keeps_referring (ops : list Interface.Op) (db : DB) :
  events_refer db →
  events_refer (Interface.run StockMovementCreateSerializer ops db).
Proof.
  revert db. induction ops as [|op ops IH]; intros db H; [done|].
  cbn [Interface.run foldl]. apply IH. unfold Interface.apply.
  destruct (Interface.step _ op db) eqn:Hs; [|done].
  by eapply step_keeps_referring.
Qed.

End Referring.

(** X6: when every stored movement refers to a stored product and warehouse
    and every ledger entry to a stored account, this is still so after any
    sequence of operations: a referenced row is never deleted, and a
    movement is only stored with its product and warehouse. *)
Theorem events_never_dangle
    (StockMovementCreateSerializer :
       DB → list (string * FieldValue) → result StockMovement.t)
    (ops : list Interface.Op) (db : DB) :
  events_refer db →
  events_refer (Interface.run StockMovementCreateSerializer ops db).
Proof. apply run_keeps_referring. Qed.

Lemma events_never_dangle_witness :
  events_refer Examples.two_movements
  ∧ events_refer (Interface.run Cases.correction_serializer
                    Cases.catalogue_changes Examples.two_movements)
  ∧ length (stock_movements
              (Interface.run Cases.correction_serializer
                 Cases.catalogue_changes Examples.two_movements)) = 3%nat
  ∧ Product.unit_price
      <$> products (Interface.run Cases.correction_serializer
                      Cases.catalogue_changes Examples.two_movements) !! 1%N
    = Some 99900.
Proof.
  assert (H : events_refer Examples.two_movements).
  { split; [|constructor].
    repeat constructor; vm_compute; eauto. }
  split; [exact H|].
  split; [exact (events_never_dangle Cases.correction_serializer
                   Cases.catalogue_changes Examples.two_movements H)|].
  split; vm_compute; reflexivity.
Defined.

(** ** Balances over the whole ledger *)

(** X7: the balance [get_balance] computes does not depend on the order of
    the ledger: any rearrangement of the stored entries gives every account
    the same balance. *)
Theorem balance_ignores_order (db : DB) (es : list LedgerEntry.t)
    (obj : Account.t) :
  es ≡ₚ ledger_entries db →
  get_balance (set_ledger_entries es db) obj = get_balance db obj.
Proof.
  intros Hp. rewrite !get_balance_exact. unfold ledger_entries_all.
  cbn [ledger_entries set_ledger_entries].
  apply exact_decimal_sum_perm. by rewrite Hp.
Qed.

Lemma balance_ignores_order_witness :
  reverse (ledger_entries Cases.three_entries)
    ≡ₚ ledger_entries Cases.three_entries
  ∧ get_balance
      (set_ledger_entries (reverse (ledger_entries Cases.three_entries))
         Cases.three_entries) Examples.revenue
    = get_balance Cases.three_entries Examples.revenue
  ∧ get_balance Cases.three_entries Examples.revenue = 0
  ∧ get_balance Cases.three_entries Cases.cash = 1800.
Proof.
  assert (H : reverse (ledger_entries Cases.three_entries)
                ≡ₚ ledger_entries Cases.three_entries)
    by apply reverse_Permutation.
  split; [exact H|].
  split; [exact (balance_ignores_order Cases.three_entries _
                   Examples.revenue H)|].
  split; reflexivity.
Defined.

Lemma exact_decimal_sum_cons (x : Z) (xs : list Z) :
  exact_decimal_sum (x :: xs) = x + exact_decimal_sum xs.
Proof. reflexivity. Qed.

Lemma one_account_matches (accts : list Account.t) (e : LedgerEntry.t) :
  NoDup (Account.id <$> accts) →
  LedgerEntry.account e ∈ Account.id <$> accts →
  exact_decimal_sum
    ((λ a, if decide (LedgerEntry.account e = Account.id a)
           then LedgerEntry.amount e else 0) <$> accts)
  = LedgerEntry.amount e.
Proof.
  induction accts as [|a accts IH]; intros Hnd Hin.
  - by apply elem_of_nil in Hin.
  - rewrite fmap_cons in Hnd, Hin. apply NoDup_cons in Hnd as [Hna Hnd].
    rewrite fmap_cons, exact_decimal_sum_cons.
    case_decide as Heq.
    + assert (exact_decimal_sum
                ((λ a, if decide (LedgerEntry.account e = Account.id a)
                       then LedgerEntry.amount e else 0) <$> accts) = 0) as ->;
        [|lia].
      clear IH Hin Hnd. rewrite <- Heq in Hna.
      induction accts as [|b accts IH]; [done|].
      rewrite fmap_cons in Hna. apply not_elem_of_cons in Hna as [Hne Hna].
      rewrite fmap_cons, exact_decimal_sum_cons.
      rewrite decide_False by done. by rewrite IH.
    + apply elem_of_cons in Hin as [Hin|Hin]; [done|].
      rewrite IH by done. lia.
Qed.

Lemma balances_cons (accts : list Account.t) (e : LedgerEntry.t)
    (es : list LedgerEntry.t) :
  exact_decimal_sum
    ((λ a, exact_decimal_sum
             (LedgerEntry.amount
                <$> filter (λ x, LedgerEntry.account x = Account.id a)
                           (e :: es))) <$> accts)
  = exact_decimal_sum
      ((λ a, if decide (LedgerEntry.account e = Account.id a)
             then LedgerEntry.amount e else 0) <$> accts)
    + exact_decimal_sum
        ((λ a, exact_decimal_sum
                 (LedgerEntry.amount
                    <$> filter (λ x, LedgerEntry.account x = Account.id a) es))
           <$> accts).
Proof.
  induction accts as [|a accts IH]; [done|].
  rewrite !fmap_cons, !exact_decimal_sum_cons, IH.
  rewrite filter_cons. case_decide;
    [rewrite fmap_cons, exact_decimal_sum_cons|]; lia.
Qed.

(** X8: over accounts with distinct ids that cover every ledger entry, the
    balances [get_balance] computes add up to the sum of all the amounts
    in the ledger: each entry counts in exactly one balance. *)
Theorem balances_add_up_to_ledger (db : DB) (accts : list Account.t) :
  NoDup (Account.id <$> accts) →
  Forall (λ e, LedgerEntry.account e ∈ Account.id <$> accts)
         (ledger_entries db) →
  exact_decimal_sum (get_balance db <$> accts)
  = exact_decimal_sum (LedgerEntry.amount <$> ledger_entries db).
Proof.
  intros Hnd Hall.
  erewrite list_fmap_ext; [|intros ? a _; apply get_balance_exact].
  unfold ledger_entries_all.
  induction (ledger_entries db) as [|e es IH]; [|].
  - clear. induction accts as [|a accts IH]; [done|].
    by rewrite fmap_cons, exact_decimal_sum_cons, IH.
  - apply Forall_cons in Hall as [He Hall].
    rewrite balances_cons, one_account_matches, IH by done.
    by rewrite fmap_cons, exact_decimal_sum_cons.
Qed.

Lemma balances_add_up_to_ledger_witness :
  (NoDup (Account.id <$> [Examples.revenue; Cases.cash])
   ∧ Forall (λ e, LedgerEntry.account e
                  ∈ Account.id <$> [Examples.revenue; Cases.cash])
            (ledger_entries Cases.three_entries))
  ∧ exact_decimal_sum
      (get_balance Cases.three_entries <$> [Examples.revenue; Cases.cash])
    = 1800.
Proof.
  assert (H1 : NoDup (Account.id <$> [Examples.revenue; Cases.cash])).
  { cbn. apply NoDup_cons. split.
    - intros Hin. apply elem_of_cons in Hin as [Hin|Hin]; [discriminate|].
      by apply elem_of_nil in Hin.
    - apply NoDup_singleton. }
  assert (H2 : Forall (λ e, LedgerEntry.account e
                            ∈ Account.id <$> [Examples.revenue; Cases.cash])
                 (ledger_entries Cases.three_entries)).
  { cbn. repeat constructor. }
  split; [split; [exact H1 | exact H2]|].
  rewrite (balances_add_up_to_ledger Cases.three_entries
             [Examples.revenue; Cases.cash] H1 H2).
  reflexivity.
Defined.

(** ** Validation of payments and sale items *)


(** X10: [SaleItemCreateSerializer] accepts a posted item exactly when its
    product exists and its quantity has at most fifteen digits, whatever the
    sign of the quantity, and the validated data hold the product and the
    quantity only: any other posted value, a unit price or a line total
    included, is left out. *)
Theorem sale_item_data_is_product_and_quantity (db : DB) (p : UUID) (q : Z)
    (others : list (string * FieldValue)) :
  SaleItemCreateSerializer_is_valid db
    (("product", VUUID p) :: ("quantity", VDecimal q) :: others)
  = if bool_decide (is_Some (products db !! p)) then
      if representable SaleItem.quantity_field q
      then Ok [("product", VUUID p); ("quantity", VDecimal q)]
      else Raise (Python.ValidationError
                    "Ensure that there are no more digits in total")
    else Raise (Python.ValidationError "Invalid pk - object does not exist.").
Proof.
  unfold SaleItemCreateSerializer_is_valid, SaleItemCreateSerializer_fields.
  cbn [to_internal_value List.find fst snd].
  rewrite bool_decide_eq_true_2 by done.
  cbn [fmap option_fmap option_map snd run_validation mbind result_bind].
  destruct (bool_decide (is_Some (products db !! p))); [|reflexivity].
  cbn [mbind result_bind].
  change (validate_method SaleItemCreateSerializer "product") with
    (@None (FieldValue → result FieldValue)).
  change (validate_method SaleItemCreateSerializer "quantity") with
    (@None (FieldValue → result FieldValue)).
  cbn [mbind result_bind List.find fst snd].
  rewrite bool_decide_eq_false_2 by done.
  rewrite bool_decide_eq_true_2 by done.
  cbn [fmap option_fmap option_map snd run_validation mbind result_bind].
  unfold DecimalField_run_validation.
  destruct (representable SaleItem.quantity_field q); reflexivity.
Qed.

(** ** Deleting sales and their items in the admin *)

Lemma existsb_elem_of {A} (f : A → bool) (l : list A) (x : A) :
  x ∈ l → f x = true → existsb f l = true.
Proof.
  intros Hin Hf. apply existsb_exists. exists x.
  split; [by apply list_elem_of_In|done].
Qed.

(** X11: [SaleAdmin] never deletes a sale whose status is COMPLETED or
    REFUNDED, nor a sale that still has an item; when it does delete a
    sale, only the sale's row goes: items, movements, ledger entries and
    audit records are left as they were. *)
Theorem sale_deletion_is_guarded (pk : UUID) (db : DB) (x : Sale.t) :
  sales db !! pk = Some x →
  (Sale.status x ∈ ["COMPLETED"; "REFUNDED"] →
     Interface.delete_sale pk db = Raise PermissionDenied)
  ∧ (∀ k i, sale_items db !! k = Some i → SaleItem.sale i = pk →
       is_Ok (Interface.delete_sale pk db) = false)
  ∧ (∀ db', Interface.delete_sale pk db = Ok db' →
       sales db' = delete pk (sales db)
       ∧ sale_items db' = sale_items db
       ∧ stock_movements db' = stock_movements db
       ∧ ledger_entries db' = ledger_entries db
       ∧ audit_logs db' = audit_logs db).
Proof.
  intros Hx. unfold Interface.delete_sale, collect_map.
  cbn [SaleItem.sale_on_delete]. rewrite Hx.
  unfold SalesAdmin.SaleAdmin_has_delete_permission.
  split; [|split].
  - intros Hst. by rewrite bool_decide_eq_true_2.
  - intros k i Hi Hs. case_bool_decide; [done|].
    rewrite (existsb_elem_of _ _ i); [done| |by apply bool_decide_eq_true].
    apply list_elem_of_fmap. exists (k, i). split; [done|].
    by apply elem_of_map_to_list.
  - intros db'. case_bool_decide; [done|].
    destruct (existsb _ _); [done|]. cbn [mbind result_bind].
    by intros [= <-].
Qed.

Lemma sale_deletion_is_guarded_witness :
  sales Examples.after_sale !! 50%N = Some Examples.completed_sale
  ∧ Interface.delete_sale 50%N Examples.after_sale = Raise PermissionDenied
  ∧ Interface.delete_sale 60%N Examples.two_pending
    = Raise (ProtectedError "SaleItem").
Proof.
  assert (H : sales Examples.after_sale !! 50%N = Some Examples.completed_sale)
    by (vm_compute; reflexivity).
  split; [exact H|]. split.
  - apply (proj1 (sale_deletion_is_guarded 50%N Examples.after_sale
                    Examples.completed_sale H)).
    cbn. apply list_elem_of_here.
  - vm_compute. reflexivity.
Defined.

(** X12: [SaleItemAdmin] refuses to delete an item of a COMPLETED sale and
    deletes an item of a sale in any other status, REFUNDED included; the
    deletion removes that item and nothing else. *)
Theorem item_deletion_checks_completed_only (pk : UUID) (db : DB)
    (i : SaleItem.t) (x : Sale.t) :
  sale_items db !! pk = Some i →
  sales db !! SaleItem.sale i = Some x →
  Interface.delete_sale_item pk db
  = if decide (Sale.status x = "COMPLETED") then Raise PermissionDenied
    else Ok (set_sale_items (delete pk (sale_items db)) db).
Proof.
  intros Hi Hx. unfold Interface.delete_sale_item,
    SalesAdmin.SaleItemAdmin_has_delete_permission.
  rewrite Hi, Hx. by case_decide.
Qed.

Lemma item_deletion_checks_completed_only_witness :
  (sale_items Examples.after_sale !! 51%N = Some Examples.four_cables
   ∧ sales Examples.after_sale !! SaleItem.sale Examples.four_cables
     = Some Examples.completed_sale)
  ∧ Interface.delete_sale_item 51%N Examples.after_sale
    = Raise PermissionDenied.
Proof.
  assert (H1 : sale_items Examples.after_sale !! 51%N
               = Some Examples.four_cables) by (vm_compute; reflexivity).
  assert (H2 : sales Examples.after_sale !! SaleItem.sale Examples.four_cables
               = Some Examples.completed_sale) by (vm_compute; reflexivity).
  split; [split; [exact H1 | exact H2]|].
  exact (item_deletion_checks_completed_only 51%N Examples.after_sale
           Examples.four_cables Examples.completed_sale H1 H2).
Defined.

(** ** Payments *)

Import SaleTotals.

Lemma get_total_paid_exact (payments : list Payment.t) (obj : Sale.t) :
  get_total_paid payments obj
  = exact_decimal_sum (Payment.amount <$> payments_all payments obj).
Proof.
  unfold get_total_paid, builtin_sum. rewrite foldl_add_exact. lia.
Qed.

(** X13: the balance due of a sale is its grand total less the exact sum of
    the payments made for that sale; a further payment for the sale lowers
    it by its amount, a payment for another sale leaves it as it is, and
    nothing keeps it from going below zero. *)
Theorem balance_due_follows_payments (payments : list Payment.t)
    (obj : Sale.t) (p : Payment.t) :
  get_balance_due payments obj + get_total_paid payments obj
  = Sale.grand_total obj
  ∧ get_total_paid payments obj
    = exact_decimal_sum
        (Payment.amount
           <$> filter (λ x, Payment.sale x = Sale.id obj) payments)
  ∧ get_balance_due (payments ++ [p]) obj
    = get_balance_due payments obj
      - (if decide (Payment.sale p = Sale.id obj) then Payment.amount p else 0)
  ∧ (Payment.sale p = Sale.id obj →
     get_balance_due payments obj < Payment.amount p →
     get_balance_due (payments ++ [p]) obj < 0).
Proof.
  assert (get_balance_due (payments ++ [p]) obj
          = get_balance_due payments obj
            - (if decide (Payment.sale p = Sale.id obj)
               then Payment.amount p else 0)) as Happ.
  { unfold get_balance_due. rewrite !get_total_paid_exact.
    unfold payments_all.
    rewrite filter_app, fmap_app, exact_decimal_sum_app.
    rewrite filter_cons, filter_nil. case_decide; cbn; lia. }
  split; [unfold get_balance_due; lia|].
  split; [apply get_total_paid_exact|]. split; [exact Happ|].
  intros Hs Hlt. rewrite Happ, decide_True by done. lia.
Qed.

Lemma Payment_setattr_readonly (x : Payment.t) (field : string)
    (v : FieldValue) :
  field ∉ PaymentsAdmin.PaymentAdmin_readonly_fields →
  Payment.setattr x field v = x.
Proof.
  intros H. destruct x, v; unfold Payment.setattr;
    repeat case_decide; subst; try done; field_not_listed H.
Qed.

Lemma PaymentsAdmin_step_fixed (op : PaymentsAdmin.Op)
    (payments payments' : list Payment.t) :
  PaymentsAdmin.step op payments = Ok payments' → payments' = payments.
Proof.
  destruct op; cbn [PaymentsAdmin.step]; try done.
  - intros [= <-]. unfold change_view. apply list_change_fixed. intros o.
    apply ModelAdmin_change_fixed. intros ???.
    apply Payment_setattr_readonly.
  - intros [= <-]. unfold change_view. apply list_change_fixed. intros o.
    apply ModelAdmin_change_fixed. intros o' field v Hf.
    apply Payment_setattr_readonly. intros Hin. apply Hf.
    unfold PaymentsAdmin.PaymentAdmin_readonly_fields,
      PaymentsAdmin.PaymentInline_readonly_fields in *.
    repeat (apply elem_of_cons in Hin as [->|Hin]);
      [..|by apply elem_of_nil in Hin];
      rewrite !elem_of_cons; repeat first [by left|right].
Qed.

(** X14: a payment cannot be added or deleted through [PaymentAdmin], nor
    deleted through [PaymentInline], and the change forms of both leave
    every field of it as stored: after any sequence of these operations the
    payment table is the one before, and so are the total paid and the
    balance due of every sale. *)
Theorem payments_are_immutable_in_admin (ops : list PaymentsAdmin.Op)
    (payments : list Payment.t) (obj : Sale.t) :
  PaymentsAdmin.run ops payments = payments
  ∧ get_total_paid (PaymentsAdmin.run ops payments) obj
    = get_total_paid payments obj
  ∧ get_balance_due (PaymentsAdmin.run ops payments) obj
    = get_balance_due payments obj.
Proof.
  assert (PaymentsAdmin.run ops payments = payments) as ->; [|done].
  unfold PaymentsAdmin.run. induction ops as [|op ops IH]; [done|].
  cbn [foldl].
  destruct (PaymentsAdmin.step op payments) eqn:Hs; [|done].
  apply PaymentsAdmin_step_fixed in Hs as ->. exact IH.
Qed.

(** ** Audit records *)

(** X15: no audit record is added, edited or deleted through
    [AuditLogAdmin], whatever is posted, and none is written by any
    operation of the views and admin classes: the audit table stays as it
    is. *)
Theorem audit_logs_are_never_written
    (StockMovementCreateSerializer :
       DB → list (string * FieldValue) → result StockMovement.t)
    (admin_ops : list AuditAdmin.Op) (ops : list Interface.Op) (db : DB) :
  AuditAdmin.run admin_ops (audit_logs db) = audit_logs db
  ∧ audit_logs (Interface.run StockMovementCreateSerializer ops db)
    = audit_logs db.
Proof.
  split.
  - unfold AuditAdmin.run. induction admin_ops as [|op l IH]; [done|].
    cbn [foldl]. destruct op; exact IH.
  - revert db. induction ops as [|op ops IH]; intros db; [done|].
    cbn [Interface.run foldl]. unfold Interface.run in IH. rewrite IH.
    unfold Interface.apply.
    destruct (Interface.step _ op db) as [db'|] eqn:Hs; [|done].
    destruct op; cbn [Interface.step] in Hs;
      try done; try (by injection Hs as <-).
    + destruct (StockMovementViewSet _ _ _ _ _ _) as [r|] eqn:Hr; [|done].
      injection Hs as <-.
      by apply StockMovementViewSet_appends in Hr as [->|(m & -> & _)].
    + destruct (products db !! Product.id p); [done|]. by injection Hs as <-.
    + unfold Interface.delete_product, collect, collect_map in Hs.
      cbn [StockMovement.product_on_delete SaleItem.product_on_delete] in Hs.
      destruct (existsb _ (stock_movements db)); [done|].
      cbn [mbind result_bind] in Hs.
      destruct (existsb _ (map_to_list _).*2); [done|].
      cbn [mbind result_bind] in Hs. by injection Hs as <-.
    + unfold Interface.delete_warehouse, collect, collect_map in Hs.
      cbn [StockMovement.warehouse_on_delete Sale.warehouse_on_delete] in Hs.
      destruct (existsb _ (stock_movements db)); [done|].
      cbn [mbind result_bind] in Hs.
      destruct (existsb _ (map_to_list _).*2); [done|].
      cbn [mbind result_bind] in Hs. by injection Hs as <-.
    + unfold Interface.delete_account, collect in Hs.
      cbn [LedgerEntry.account_on_delete] in Hs.
      destruct (existsb _ (ledger_entries db)); [done|].
      by injection Hs as <-.
    + destruct (sales db !! pk); [|by injection Hs as <-].
      destruct (SalesAdmin.SaleItemInline_has_delete_permission _); [|done].
      by injection Hs as <-.
    + unfold Interface.delete_sale, collect_map in Hs.
      cbn [SaleItem.sale_on_delete] in Hs.
      destruct (SalesAdmin.SaleAdmin_has_delete_permission _); [|done].
      destruct (existsb _ (map_to_list _).*2); [done|].
      cbn [mbind result_bind] in Hs. by injection Hs as <-.
    + destruct (_ ≫= _); [|by injection Hs as <-].
      destruct (SalesAdmin.SaleItemInline_has_delete_permission _); [|done].
      by injection Hs as <-.
    + destruct (sales db !! sale); [|by injection Hs as <-].
      destruct (SalesAdmin.SaleItemInline_has_delete_permission _) as [[]|];
        [|done|done].
      by injection Hs as <-.
    + unfold Interface.delete_sale_item in Hs.
      destruct (SalesAdmin.SaleItemAdmin_has_delete_permission _ _) as [[]|];
        [|done|done].
      by injection Hs as <-.
    + unfold Interface.delete_category, collect_map in Hs.
      cbn [Category.parent_on_delete Product.category_on_delete
           mbind result_bind] in Hs.
      destruct (existsb _ (map_to_list _).*2); [done|].
      cbn [mbind result_bind] in Hs. by injection Hs as <-.
    + unfold Interface.delete_user, collect, collect_map in Hs.
      cbn [StockMovement.created_by_on_delete Sale.sold_by_on_delete] in Hs.
      destruct (existsb _ (stock_movements db)); [done|].
      cbn [mbind result_bind] in Hs.
      destruct (existsb _ (map_to_list _).*2); [done|].
      cbn [mbind result_bind] in Hs. by injection Hs as <-.
Qed.

(** ** The category and warehouse listings *)

Import CatalogueViews.

Lemma lower_true (v : string) :
  lower v = "true"
  ↔ v ∈ ["true"; "truE"; "trUe"; "trUE"; "tRue"; "tRuE"; "tRUe"; "tRUE";
      "True"; "TruE"; "TrUe"; "TrUE"; "TRue"; "TRuE"; "TRUe"; "TRUE"].
Proof.
  split.
  - destruct v as [|a [|b [|c [|d [|e v]]]]]; try done.
    intros [= Ha Hb Hc Hd].
    destruct a as [[] [] [] [] [] [] [] []]; try discriminate Ha;
    destruct b as [[] [] [] [] [] [] [] []]; try discriminate Hb;
    destruct c as [[] [] [] [] [] [] [] []]; try discriminate Hc;
    destruct d as [[] [] [] [] [] [] [] []]; try discriminate Hd;
    rewrite !elem_of_cons; repeat first [by left|right].
  - rewrite !elem_of_cons, elem_of_nil.
    intros H; repeat destruct H as [->|H]; done.
Qed.

(** X16: the category listing never fails.  Without [is_active] in the
    query it is every stored category; with it, it is the stored categories
    whose flag is set when the value is a spelling of the word true in
    either case, and those whose flag is not set for any other value, the
    empty string, 1 and yes among them. *)
Theorem category_listing_filters_on_true (request : Request) (db : DB) :
  ∃ queryset,
    CategoryViewSet_get_queryset request db = Ok queryset
    ∧ ∀ k c,
        queryset !! k = Some c
        ↔ categories db !! k = Some c
          ∧ ∀ v, query_params request !! "is_active" = Some v →
                 Category.is_active c
                 = bool_decide
                     (v ∈ ["true"; "truE"; "trUe"; "trUE"; "tRue"; "tRuE";
                     "tRUe"; "tRUE"; "True"; "TruE"; "TrUe"; "TrUE";
                     "TRue"; "TRuE"; "TRUe"; "TRUE"]).
Proof.
  unfold CategoryViewSet_get_queryset.
  change (query_param request "is_active")
    with (Ok (query_params request !! "is_active")).
  cbn [mbind result_bind].
  destruct (query_params request !! "is_active") as [v|].
  - eexists. split; [done|]. intros k c. rewrite map_lookup_filter_Some.
    cbn [snd]. split.
    + intros [Hk Hc]. split; [done|]. intros ? [= <-]. rewrite Hc.
      apply bool_decide_ext, lower_true.
    + intros [Hk Hc]. split; [done|]. rewrite (Hc v eq_refl).
      apply bool_decide_ext. symmetry. apply lower_true.
  - eexists. split; [done|]. intros k c. split; [|by intros [? _]].
    intros Hk. by split.
Qed.

(** X17: the warehouse listing fails for every request: it reads
    [request.query], which a request does not have, so the filter on
    [is_active] below it is never reached. *)
Theorem warehouse_listing_raises (request : Request) (db : DB) :
  WarehouseViewSet_get_queryset request db = Raise (AttributeError "query").
Proof. reflexivity. Qed.
